(** * sim.py: the QuestaSim helper script of day1/run

    A shallow embedding of [day1/run/sim.py] and of the few library calls
    it makes ([print], [sys.exit], [os.path.join], [os.path.exists],
    [os.makedirs], [shutil.rmtree], [subprocess.check_call]), followed by
    the properties of the command dispatcher and of its five actions.

    The script is a straight line of effects on three things: the
    filesystem, the standard output and the external tools it starts.
    They are gathered in a [world]; every routine of the script is a
    function from worlds to a result and a new world, written in a small
    state-and-exception monad. *)

From Stdlib Require Import ZArith Ascii.
From stdpp Require Import base option list gmap strings fin_maps.

Local Open Scope Z_scope.

(** ** Python strings and POSIX paths *)

(** [sep.join(l)] *)
Definition str_join (sep : string) (l : list string) : string :=
  String.concat sep l.

Definition is_sep (c : ascii) : bool := Ascii.eqb c "/"%char.

Definition startswith_sep (s : string) : bool :=
  match s with
  | String c _ => is_sep c
  | EmptyString => false
  end.

Fixpoint endswith_sep (s : string) : bool :=
  match s with
  | EmptyString => false
  | String c EmptyString => is_sep c
  | String _ s' => endswith_sep s'
  end.

(** [os.path.join(a, b)] of [posixpath], for two arguments. *)
Definition os_path_join (a b : string) : string :=
  if startswith_sep b then b
  else if String.eqb a "" || endswith_sep a then a +:+ b
  else a +:+ "/" +:+ b.

(** [s.split("/")]: the pieces between separators, never an empty list. *)
Fixpoint split_sep (s : string) : list string :=
  match s with
  | EmptyString => [""]
  | String c s' =>
      if is_sep c then "" :: split_sep s'
      else match split_sep s' with
           | w :: ws => String c w :: ws
           | [] => [String c ""]
           end
  end.

(** The components of a path: the pieces of the path string other than
    the empty piece and ["."], after the marker ["/"] when the path is
    absolute; a relative path is read from the working directory.  The
    filesystem below is keyed by them, so that ["../sim"] and ["../sim/"]
    name the same entry, ["/../sim"] names another one, and
    ["../sim/waveform.wlf"] is an entry of the directory ["../sim"]. *)
Definition components (s : string) : list string :=
  (if startswith_sep s then ["/"] else []) ++
  filter (λ w, w ≠ "" ∧ w ≠ ".") (split_sep s).

(** The path string asks for a directory: it ends with a separator or
    with the piece ["."]. *)
Definition names_directory (s : string) : bool :=
  match last (split_sep s) with
  | Some piece => String.eqb piece "" || String.eqb piece "."
  | None => false
  end.

(** ** The filesystem *)

(** What sits at a path: a regular file, a directory, which may or may
    not allow entries to be added to it and removed from it, or a
    symbolic link whose target does not exist.  A link whose target exists
    is looked up as its target; the model has no world of its own for
    it. *)
Inductive node :=
| File
| Dir (writable : bool)
| Link.

Global Instance node_eq_dec : EqDecision node.
Proof. solve_decision. Defined.

(** A filesystem maps the component list of a path to what sits there;
    the empty list is the working directory itself. *)
Abbreviation path := (list string) (only parsing).
Abbreviation filesystem := (gmap (list string) node) (only parsing).

Definition parent (p : path) : path := removelast p.

(** [os.path.exists] follows links: a link without a target does not
    exist. *)
Definition exists_at (f : filesystem) (p : path) : bool :=
  match f !! p with
  | Some File | Some (Dir _) => true
  | Some Link | None => false
  end.

Definition is_dir_at (f : filesystem) (p : path) : bool :=
  match f !! p with
  | Some (Dir _) => true
  | _ => false
  end.

Inductive os_error :=
| FileNotFoundError
| FileExistsError
| NotADirectoryError
| PermissionError
| PlainOSError.      (* an [OSError] of no subclass *)

(** The error of [mkdir(p)], if any.  The name is taken as soon as
    anything sits at [p], a link without a target included. *)
Definition mkdir_error (f : filesystem) (p : path) : option os_error :=
  match f !! p with
  | Some _ => Some FileExistsError
  | None =>
      match f !! parent p with
      | None | Some Link => Some FileNotFoundError
      | Some File => Some NotADirectoryError
      | Some (Dir false) => Some PermissionError
      | Some (Dir true) => None
      end
  end.

(** An entry can be unlinked when the directory holding it is writable;
    the working directory itself cannot. *)
Definition removable (f : filesystem) (q : path) : bool :=
  match q, f !! parent q with
  | _ :: _, Some (Dir true) => true
  | _, _ => false
  end.

(** Everything at or below [q] can be unlinked. *)
Definition subtree_removable (f : filesystem) (q : path) : bool :=
  bool_decide (map_Forall (λ r _, q `prefix_of` r → removable f r = true) f).

(** The first error a recursive delete of [p] meets, if any.
    [shutil.rmtree] refuses to work on a symbolic link. *)
Definition rmtree_error (f : filesystem) (p : path) : option os_error :=
  match f !! p with
  | None => Some FileNotFoundError
  | Some File => Some NotADirectoryError
  | Some Link => Some PlainOSError
  | Some (Dir _) =>
      if subtree_removable f p then None else Some PermissionError
  end.

(** What a recursive delete of [p] that goes on after errors leaves: an
    entry at or below [p] goes when it and everything below it can be
    unlinked; a path that is no directory is left alone. *)
Definition rmtree_fs (f : filesystem) (p : path) : filesystem :=
  match f !! p with
  | Some (Dir _) =>
      filter (λ kv, ¬ (p `prefix_of` kv.1 ∧ subtree_removable f kv.1 = true)) f
  | _ => f
  end.

(** ** The world and the monad of the script *)

Inductive exn :=
| SystemExit (code : Z)
| CalledProcessError (returncode : Z) (cmd : list string)
| OSError (e : os_error).

(** One call of [subprocess.check_call]: the argument vector and the exit
    status of the child, or [None] when the child could not be started. *)
Record invocation := Invocation {
  inv_argv : list string;
  inv_status : option Z
}.

Record world := World {
  fs : filesystem;
  stdout : list string;      (* one element per [print] call *)
  calls : list invocation    (* the children started, oldest first *)
}.

Inductive result (A : Type) :=
| Ok (a : A)
| Raise (e : exn).
Arguments Ok {A} a.
Arguments Raise {A} e.

Definition M (A : Type) : Type := world → result A * world.

Definition ret {A} (a : A) : M A := λ w, (Ok a, w).

Definition raise {A} (e : exn) : M A := λ w, (Raise e, w).

Definition bind {A B} (m : M A) (k : A → M B) : M B :=
  λ w, match m w with
       | (Ok a, w') => k a w'
       | (Raise e, w') => (Raise e, w')
       end.

(** [try: m  except: h] *)
Definition try_except {A} (m : M A) (h : exn → M A) : M A :=
  λ w, match m w with
       | (Ok a, w') => (Ok a, w')
       | (Raise e, w') => h e w'
       end.

Declare Scope prog_scope.
Delimit Scope prog_scope with prog.
Notation "x <- m ;; k" := (bind m (λ x, k))
  (at level 100, m at next level, right associativity) : prog_scope.
Notation "m ;;; k" := (bind m (λ _, k))
  (at level 100, right associativity) : prog_scope.
Local Open Scope prog_scope.

(** The exit status of the interpreter: zero when the script runs off its
    end, the argument of [sys.exit], and one for any other exception,
    which is left unhandled. *)
Definition exit_status {A} (r : result A) : Z :=
  match r with
  | Ok _ => 0
  | Raise (SystemExit code) => code
  | Raise _ => 1
  end.

(** ** Library calls *)

(** [print(a, b, ...)]: the arguments separated by one space. *)
Definition print (args : list string) : M unit :=
  λ w, (Ok tt, World (fs w) (stdout w ++ [str_join " " args]) (calls w)).

Definition sys_exit {A} (code : Z) : M A := raise (SystemExit code).

Definition path_exists (p : path) : M bool :=
  λ w, (Ok (exists_at (fs w) p), w).

Definition os_path_exists (name : string) : M bool :=
  if String.eqb name "" then ret false
  else if names_directory name then
    λ w, (Ok (is_dir_at (fs w) (components name)), w)
  else path_exists (components name).

Definition mkdir (p : path) : M unit :=
  λ w, match mkdir_error (fs w) p with
       | Some e => (Raise (OSError e), w)
       | None => (Ok tt, World (<[p := Dir true]> (fs w)) (stdout w) (calls w))
       end.

(** [os.makedirs]: climb to the nearest ancestor that exists, then create
    the directories on the way down.  The recursion of the library is on
    the head of the path, here on the reversed component list. *)
Fixpoint makedirs_rev (rname : path) : M unit :=
  match rname with
  | [] => mkdir []
  | _ :: rhead =>
      let head := rev rhead in
      b <- path_exists head ;;
      (match head with
       | _ :: _ =>
           if negb b then
             try_except (makedirs_rev rhead)
               (λ e, match e with
                     | OSError FileExistsError => ret tt
                     | _ => raise e
                     end)
           else ret tt
       | [] => ret tt
       end) ;;;
      mkdir (rev rname)
  end.

Definition os_makedirs (name : string) : M unit :=
  makedirs_rev (rev (components name)).

(** [shutil.rmtree(name, ignore_errors)].  The script only ever passes
    [ignore_errors=True].  Without it the walk stops at its first error;
    what is gone by then depends on the listing order, which the model
    does not fix, and the largest removal is kept. *)
Definition shutil_rmtree (name : string) (ignore_errors : bool) : M unit :=
  λ w,
    let p := components name in
    let w' := World (rmtree_fs (fs w) p) (stdout w) (calls w) in
    match rmtree_error (fs w) p with
    | Some e => if ignore_errors then (Ok tt, w') else (Raise (OSError e), w')
    | None => (Ok tt, w')
    end.

Section Script.

(** The external tools: what starting [cmd] on a filesystem does.  Either
    the child cannot be started, or it runs to its end, leaves a
    filesystem behind and exits with a status. *)
Variable spawn : list string → filesystem → os_error + Z * filesystem.

(** [subprocess.check_call(cmd)] *)
Definition subprocess_check_call (cmd : list string) : M unit :=
  λ w, match spawn cmd (fs w) with
       | inl e =>
           (Raise (OSError e),
            World (fs w) (stdout w) (calls w ++ [Invocation cmd None]))
       | inr (rc, f') =>
           let w' := World f' (stdout w)
                       (calls w ++ [Invocation cmd (Some rc)]) in
           if rc =? 0 then (Ok tt, w')
           else (Raise (CalledProcessError rc cmd), w')
       end.

(** ** Configuration variables *)

Definition SRC_DIR : string := "../src".
Definition SIM_DIR : string := "../sim".

Definition VERILOG_FILES : list string :=
  [ os_path_join SRC_DIR "d1_design.v";
    os_path_join SRC_DIR "d1_test.v" ].

Definition TOP_MODULE : string := "d1_test".

Definition VSIM_OPTIONS : list string := ["-vopt"; "-voptargs=+acc"].

(** ** Utility functions *)

Definition ensure_dirs : M unit :=
  b <- os_path_exists "../quartus" ;;
  (if negb b then os_makedirs "../quartus" else ret tt) ;;;
  b <- os_path_exists SIM_DIR ;;
  (if negb b then os_makedirs SIM_DIR else ret tt).

Definition run_command (cmd : list string) : M unit :=
  print ["Running:"; str_join " " cmd] ;;;
  subprocess_check_call cmd.

(** ** Simulation commands *)

Definition simulate : M unit :=
  ensure_dirs ;;;
  run_command ["vlib"; SIM_DIR] ;;;
  run_command (["vlog"; "-work"; SIM_DIR] ++ VERILOG_FILES) ;;;
  let cmd :=
    ["vsim"] ++ VSIM_OPTIONS ++
    [ "-c";
      "-do"; "log -r /* ; run -all; quit";
      TOP_MODULE;
      "-work"; SIM_DIR;
      "-l"; os_path_join SIM_DIR "simulation.log";
      "-wlf"; os_path_join SIM_DIR "waveform.wlf" ] in
  run_command cmd.

Definition simulate_gui : M unit :=
  ensure_dirs ;;;
  run_command ["vlib"; SIM_DIR] ;;;
  run_command (["vlog"; "-work"; SIM_DIR] ++ VERILOG_FILES) ;;;
  let cmd :=
    ["vsim"] ++ VSIM_OPTIONS ++
    [ "-do"; "log -r /*";
      TOP_MODULE;
      "-work"; SIM_DIR ] in
  run_command cmd.

Definition view_wave : M unit :=
  run_command ["vsim"; "-view"; os_path_join SIM_DIR "waveform.wlf"].

Definition clean : M unit :=
  shutil_rmtree SIM_DIR true ;;;
  print ["Cleaned simulation directory."].

Definition help_text : string :=
"
Usage: python sim.py [command]

Commands:
  simulate       : Run simulation in batch mode.
  simulate_gui   : Run simulation in GUI mode.
  view_wave      : View the generated waveform.
  clean          : Clean the simulation directory.
  help           : Display this help message.
".

Definition print_help : M unit := print [help_text].

(** ** Main execution block *)

(** [argv] is [sys.argv]: the script name, then the arguments. *)
Definition main (argv : list string) : M unit :=
  (if (Z.of_nat (length argv) <? 2)
   then print_help ;;; sys_exit 1
   else ret tt) ;;;
  let cmd := nth 1 argv "" in
  if String.eqb cmd "simulate" then simulate
  else if String.eqb cmd "simulate_gui" then simulate_gui
  else if String.eqb cmd "view_wave" then view_wave
  else if String.eqb cmd "clean" then clean
  else if String.eqb cmd "help" then print_help
  else print ["Unknown command:"; cmd] ;;; print_help.

(** The process as its caller sees it: exit status and final world. *)
Definition run_script (argv : list string) (w : world) : Z * world :=
  let '(r, w') := main argv w in (exit_status r, w').

End Script.

(** ** Vocabulary of the statements *)

(** The invocations a routine adds to the log of a world. *)
Definition issued {A} (m : M A) (w : world) : list invocation :=
  drop (length (calls w)) (calls (m w).2).

(** The filesystem a tool leaves behind; a tool that cannot be started
    leaves it as it was. *)
Definition tool_effect (spawn : list string → filesystem → os_error + Z * filesystem)
    (cmd : list string) (f : filesystem) : filesystem :=
  match spawn cmd f with
  | inr (_, f') => f'
  | inl _ => f
  end.

(** [sub in s] *)
Definition has_substring (sub s : string) : bool :=
  match String.index 0 sub s with
  | Some _ => true
  | None => false
  end.

(** The value of the [-do] option of an argument vector, if it has one. *)
Fixpoint do_script (cmd : list string) : option string :=
  match cmd with
  | [] => None
  | a :: rest =>
      if String.eqb a "-do" then head rest else do_script rest
  end.

(** The argument vectors the actions build, under the names used in the
    statements below; [simulate], [simulate_gui] and [view_wave] build
    them in place. *)
Definition vlib_cmd : list string := ["vlib"; SIM_DIR].

Definition vlog_cmd : list string := ["vlog"; "-work"; SIM_DIR] ++ VERILOG_FILES.

Definition vsim_batch_cmd (log wlf : string) : list string :=
  ["vsim"] ++ VSIM_OPTIONS ++
  ["-c"; "-do"; "log -r /* ; run -all; quit"; TOP_MODULE;
   "-work"; SIM_DIR; "-l"; log; "-wlf"; wlf].

Definition vsim_gui_cmd : list string :=
  ["vsim"] ++ VSIM_OPTIONS ++ ["-do"; "log -r /*"; TOP_MODULE; "-work"; SIM_DIR].

(** The steps section 4.5 of the specification says the two simulations
    share: directory preparation, library creation, compilation. *)
Definition compile_steps
    (spawn : list string → filesystem → os_error + Z * filesystem) : M unit :=
  ensure_dirs ;;;
  run_command spawn vlib_cmd ;;;
  run_command spawn vlog_cmd.

(** How a tool that did not exit with status zero makes [run_command]
    fail: by its exit status, or by not starting at all. *)
Inductive failed (cmd : list string) : option Z → exn → Prop :=
| failed_status (rc : Z) :
    rc ≠ 0 → failed cmd (Some rc) (CalledProcessError rc cmd)
| failed_start (oe : os_error) :
    failed cmd None (OSError oe).

(** The only change from [w] to [w'] is that directories were created:
    nothing was printed, no tool was started, and every path holds what
    it held or, if it held nothing, a new directory. *)
Definition only_adds_dirs (w w' : world) : Prop :=
  stdout w' = stdout w ∧ calls w' = calls w ∧
  ∀ p : list string,
    fs w' !! p = fs w !! p ∨ (fs w !! p = None ∧ fs w' !! p = Some (Dir true)).

(** The ways the shared steps can end, with the invocations issued by
    then: the preparation fails, the library creation fails, the
    compilation fails, or all went well. *)
Inductive compile_trace : result unit → list invocation → Prop :=
| prepare_failed (e : exn) :
    compile_trace (Raise e) []
| vlib_failed (s : option Z) (e : exn) :
    failed vlib_cmd s e →
    compile_trace (Raise e) [Invocation vlib_cmd s]
| vlog_failed (s : option Z) (e : exn) :
    failed vlog_cmd s e →
    compile_trace (Raise e)
      [Invocation vlib_cmd (Some 0); Invocation vlog_cmd s]
| compiled :
    compile_trace (Ok tt)
      [Invocation vlib_cmd (Some 0); Invocation vlog_cmd (Some 0)].

(** The ways a simulation that ends with the command [final] can end. *)
Inductive run_trace (final : list string)
    : result unit → list invocation → Prop :=
| run_stopped (e : exn) (l : list invocation) :
    compile_trace (Raise e) l →
    run_trace final (Raise e) l
| run_failed (s : option Z) (e : exn) :
    failed final s e →
    run_trace final (Raise e)
      [Invocation vlib_cmd (Some 0); Invocation vlog_cmd (Some 0);
       Invocation final s]
| run_finished :
    run_trace final (Ok tt)
      [Invocation vlib_cmd (Some 0); Invocation vlog_cmd (Some 0);
       Invocation final (Some 0)].

(** The five tokens the dispatcher knows. *)
Definition known_commands : list string :=
  ["simulate"; "simulate_gui"; "view_wave"; "clean"; "help"].

(** The line [run_command] prints for an invocation. *)
Definition echo (i : invocation) : string :=
  "Running: " +:+ str_join " " (inv_argv i).

(** The filesystem after the tools of the invocations [l] ran on [f], one
    after the other. *)
Definition replay (spawn : list string → filesystem → os_error + Z * filesystem)
    (l : list invocation) (f : filesystem) : filesystem :=
  foldl (λ g i, tool_effect spawn (inv_argv i) g) f l.

(** All that happened from [w] to [w'] is that tools were run through
    [run_command]: each was announced on the standard output and logged,
    and the filesystem is what the tools made of it. *)
Definition runs_tools (spawn : list string → filesystem → os_error + Z * filesystem)
    (w w' : world) : Prop :=
  ∃ l, calls w' = calls w ++ l
       ∧ stdout w' = stdout w ++ map echo l
       ∧ fs w' = replay spawn l (fs w).

(** The exceptions a failing tool or a failing system call raises, as
    opposed to [sys.exit]. *)
Definition is_error (e : exn) : Prop :=
  match e with
  | SystemExit _ => False
  | CalledProcessError _ _ | OSError _ => True
  end.

(** ** Worlds and tools of the examples *)

Module Examples.

(** Every tool runs, touches nothing and exits with status zero. *)
Definition tools_succeed (cmd : list string) (f : filesystem)
    : os_error + Z * filesystem :=
  inr (0, f).

(** The tool called [name] exits with status [rc]; the others succeed. *)
Definition tool_fails (name : string) (rc : Z) (cmd : list string)
    (f : filesystem) : os_error + Z * filesystem :=
  match cmd with
  | tool :: _ => if String.eqb tool name then inr (rc, f) else inr (0, f)
  | [] => inr (0, f)
  end.

(** A checkout in which nothing was built yet: the working directory
    [run] and its parent. *)
Definition fresh_fs : filesystem :=
  <[ [".."] := Dir true ]> {[ [] := Dir true ]}.

(** The same after a simulation: both directories, a log, a waveform. *)
Definition built_fs : filesystem :=
  <[ [".."; "sim"; "waveform.wlf"] := File ]>
  (<[ [".."; "sim"; "simulation.log"] := File ]>
  (<[ [".."; "sim"] := Dir true ]>
  (<[ [".."; "quartus"] := Dir true ]> fresh_fs))).

(** The same again, with a parent directory that is not writable: the
    simulation directory cannot be unlinked from it. *)
Definition locked_fs : filesystem :=
  <[ [".."] := Dir false ]> built_fs.

(** A checkout in which nothing was built and whose parent directory is
    not writable. *)
Definition readonly_fs : filesystem :=
  <[ [".."] := Dir false ]> {[ [] := Dir true ]}.

(** No tool is installed: none can be started. *)
Definition tools_missing (cmd : list string) (f : filesystem)
    : os_error + Z * filesystem :=
  inl FileNotFoundError.

(** Tools that leave files behind: [vlib] a library description, [vsim]
    a log and a waveform. *)
Definition tools_write (cmd : list string) (f : filesystem)
    : os_error + Z * filesystem :=
  match cmd with
  | tool :: _ =>
      if String.eqb tool "vlib" then
        inr (0, <[ [".."; "sim"; "_info"] := File ]> f)
      else if String.eqb tool "vsim" then
        inr (0, <[ [".."; "sim"; "waveform.wlf"] := File ]>
                  (<[ [".."; "sim"; "simulation.log"] := File ]> f))
      else inr (0, f)
  | [] => inl FileNotFoundError
  end.


(** A checkout in which a link without a target sits at the place of the
    simulation directory. *)
Definition dangling_fs : filesystem :=
  <[ [".."; "sim"] := Link ]> fresh_fs.

Definition fresh : world := World fresh_fs [] [].
Definition built : world := World built_fs [] [].
Definition locked : world := World locked_fs [] [].
Definition readonly : world := World readonly_fs [] [].
Definition dangling : world := World dangling_fs [] [].

End Examples.

(** * Properties *)

(** ** The monad *)

Lemma bind_ok {A B} (m : M A) (k : A → M B) w a w' :
  m w = (Ok a, w') → bind m k w = k a w'.
Proof. intros H. unfold bind. by rewrite H. Qed.

Lemma bind_raise {A B} (m : M A) (k : A → M B) w e w' :
  m w = (Raise e, w') → bind m k w = (Raise e, w').
Proof. intros H. unfold bind. by rewrite H. Qed.

Lemma bind_assoc {A B C} (m : M A) (k : A → M B) (h : B → M C) w :
  bind (bind m k) h w = bind m (λ a, bind (k a) h) w.
Proof. unfold bind. destruct (m w) as [[a|e] w']; reflexivity. Qed.

(** ** The dispatcher *)

Section Dispatcher.

Variable spawn : list string → filesystem → os_error + Z * filesystem.

Lemma main_dispatch script cmd rest w :
  main spawn (script :: cmd :: rest) w =
    (if String.eqb cmd "simulate" then simulate spawn
     else if String.eqb cmd "simulate_gui" then simulate_gui spawn
     else if String.eqb cmd "view_wave" then view_wave spawn
     else if String.eqb cmd "clean" then clean
     else if String.eqb cmd "help" then print_help
     else print ["Unknown command:"; cmd] ;;; print_help) w.
Proof.
  unfold main.
  replace (Z.of_nat (length (script :: cmd :: rest)) <? 2) with false
    by (symmetry; apply Z.ltb_ge; cbn [length]; lia).
  reflexivity.
Qed.

Lemma main_short argv w :
  (length argv < 2)%nat →
  main spawn argv w =
    (Raise (SystemExit 1), World (fs w) (stdout w ++ [help_text]) (calls w)).
Proof.
  intros Hlen. unfold main.
  replace (Z.of_nat (length argv) <? 2) with true
    by (symmetry; apply Z.ltb_lt; lia).
  reflexivity.
Qed.

Lemma main_unknown script cmd rest w :
  cmd ∉ known_commands →
  main spawn (script :: cmd :: rest) w =
    (Ok tt,
     World (fs w) (stdout w ++ ["Unknown command: " +:+ cmd; help_text])
       (calls w)).
Proof.
  intros Hcmd. rewrite main_dispatch.
  assert (∀ k, k ∈ known_commands → String.eqb cmd k = false) as Hne.
  { intros k Hk. apply String.eqb_neq. intros ->. by apply Hcmd. }
  rewrite !Hne by (unfold known_commands; set_solver).
  unfold bind, print_help, print. cbn. by rewrite <- app_assoc.
Qed.

End Dispatcher.

(** C4: with no argument after the script name the dispatcher prints the
    usage text and exits with status one; the filesystem is as it was and
    no tool was started, so no action ran. *)
Theorem no_argument_prints_usage_and_fails
    (spawn : list string → filesystem → os_error + Z * filesystem)
    (argv : list string) (w : world) :
  (length argv < 2)%nat →
  run_script spawn argv w =
    (1, World (fs w) (stdout w ++ [help_text]) (calls w)).
Proof.
  intros Hlen. unfold run_script. by rewrite main_short.
Qed.

Lemma no_argument_prints_usage_and_fails_witness :
  (length ["sim.py"] < 2)%nat ∧
  run_script Examples.tools_succeed ["sim.py"] Examples.built =
    (1, World Examples.built_fs [help_text] []).
Proof.
  split; [cbn; lia |].
  apply (no_argument_prints_usage_and_fails
           Examples.tools_succeed ["sim.py"] Examples.built).
  cbn; lia.
Defined.

(** C5: the token [help] prints the usage text, the same the no-argument
    path prints, exits with status zero, starts no tool and leaves the
    filesystem as it was. *)
Theorem help_prints_usage_and_succeeds
    (spawn : list string → filesystem → os_error + Z * filesystem)
    (script : string) (rest : list string) (w : world) :
  run_script spawn (script :: "help" :: rest) w =
    (0, World (fs w) (stdout w ++ [help_text]) (calls w))
  ∧ stdout (run_script spawn (script :: "help" :: rest) w).2 =
    stdout (run_script spawn [script] w).2.
Proof.
  split.
  - unfold run_script. rewrite main_dispatch. reflexivity.
  - unfold run_script. rewrite main_dispatch.
    rewrite main_short by (cbn; lia). reflexivity.
Qed.

(** C3, as the code has it: on the unknown token [bogus] the dispatcher
    prints the unknown-command message and the usage text, then runs off
    the end of the script, so the exit status is zero. *)
Theorem unknown_command_exits_with_zero
    (spawn : list string → filesystem → os_error + Z * filesystem)
    (w : world) :
  ("bogus" ∉ known_commands)
  ∧ run_script spawn ["sim.py"; "bogus"] w =
      (0, World (fs w) (stdout w ++ ["Unknown command: bogus"; help_text])
            (calls w)).
Proof.
  split.
  - unfold known_commands. rewrite !elem_of_cons, elem_of_nil.
    intros H. repeat destruct H as [H|H]; (discriminate || contradiction).
  - unfold run_script. rewrite main_dispatch. cbn.
    unfold bind, print_help, print. cbn. by rewrite <- app_assoc.
Qed.

(** ** Running a tool *)

Section Tools.

Variable spawn : list string → filesystem → os_error + Z * filesystem.

(** What one [run_command] does, by the outcome of the tool. *)
Lemma run_command_unfold cmd w :
  run_command spawn cmd w =
    let out := stdout w ++ ["Running: " +:+ str_join " " cmd] in
    match spawn cmd (fs w) with
    | inl e =>
        (Raise (OSError e),
         World (fs w) out (calls w ++ [Invocation cmd None]))
    | inr (rc, f') =>
        (if rc =? 0 then Ok tt else Raise (CalledProcessError rc cmd),
         World f' out (calls w ++ [Invocation cmd (Some rc)]))
    end.
Proof.
  unfold run_command, bind, print, subprocess_check_call. cbn.
  destruct (spawn cmd (fs w)) as [e|[rc f']]; [reflexivity |].
  destruct (rc =? 0); reflexivity.
Qed.

(** Every [run_command] starts exactly one child, whatever comes of it. *)
Lemma run_command_calls cmd w :
  ∃ status, calls (run_command spawn cmd w).2 =
            calls w ++ [Invocation cmd status].
Proof.
  rewrite run_command_unfold. cbn.
  destruct (spawn cmd (fs w)) as [e|[rc f']]; eauto.
Qed.

Lemma run_command_fs cmd w :
  fs (run_command spawn cmd w).2 = tool_effect spawn cmd (fs w).
Proof.
  rewrite run_command_unfold. unfold tool_effect. cbn.
  destruct (spawn cmd (fs w)) as [e|[rc f']]; reflexivity.
Qed.

Lemma run_command_ok cmd w w' :
  run_command spawn cmd w = (Ok tt, w') →
  ∃ f', spawn cmd (fs w) = inr (0, f')
        ∧ w' = World f' (stdout w ++ ["Running: " +:+ str_join " " cmd])
                 (calls w ++ [Invocation cmd (Some 0)]).
Proof.
  rewrite run_command_unfold. cbn.
  destruct (spawn cmd (fs w)) as [e|[rc f']]; [discriminate |].
  destruct (Z.eqb_spec rc 0) as [->|]; [|discriminate].
  intros [= <-]. eauto.
Qed.

Lemma run_command_raise cmd w e w' :
  run_command spawn cmd w = (Raise e, w') →
  (∃ rc, rc ≠ 0 ∧ e = CalledProcessError rc cmd
         ∧ calls w' = calls w ++ [Invocation cmd (Some rc)])
  ∨ (∃ oe, e = OSError oe ∧ calls w' = calls w ++ [Invocation cmd None]).
Proof.
  rewrite run_command_unfold. cbn.
  destruct (spawn cmd (fs w)) as [oe|[rc f']].
  - intros [= <- <-]. right. eauto.
  - destruct (Z.eqb_spec rc 0) as [->|Hrc]; [discriminate |].
    intros [= <- <-]. left. eauto.
Qed.

End Tools.

(** C7: [view_wave] starts exactly one tool, the viewer on the waveform
    file of the simulation directory, and prepares no directory: the
    filesystem afterwards is the one the viewer itself leaves. *)
Theorem view_wave_one_invocation
    (spawn : list string → filesystem → os_error + Z * filesystem)
    (w : world) :
  ∃ wlf status,
    issued (view_wave spawn) w = [Invocation ["vsim"; "-view"; wlf] status]
    ∧ wlf = os_path_join SIM_DIR "waveform.wlf"
    ∧ components wlf = components SIM_DIR ++ ["waveform.wlf"]
    ∧ fs (view_wave spawn w).2 =
        tool_effect spawn ["vsim"; "-view"; wlf] (fs w).
Proof.
  exists (os_path_join SIM_DIR "waveform.wlf").
  destruct (run_command_calls spawn
              ["vsim"; "-view"; os_path_join SIM_DIR "waveform.wlf"] w)
    as [status Hcalls].
  exists status. unfold issued, view_wave. rewrite Hcalls.
  rewrite drop_app_length. repeat split.
  apply run_command_fs.
Qed.

(** ** Directory preparation *)

Lemma components_SIM_DIR : components SIM_DIR = [".."; "sim"].
Proof. reflexivity. Qed.

Lemma components_quartus : components "../quartus" = [".."; "quartus"].
Proof. reflexivity. Qed.

Global Instance only_adds_dirs_preorder : PreOrder only_adds_dirs.
Proof.
  split.
  - intros w. repeat split. intros p. by left.
  - intros w1 w2 w3 (Ho1 & Hc1 & Hf1) (Ho2 & Hc2 & Hf2).
    split; [congruence |]. split; [congruence |].
    intros p. destruct (Hf1 p) as [H1|[H1 H1']], (Hf2 p) as [H2|[H2 H2']].
    + left. congruence.
    + right. split; congruence.
    + right. split; congruence.
    + congruence.
Qed.

Lemma only_adds_dirs_lookup w w' p n :
  only_adds_dirs w w' → fs w !! p = Some n → fs w' !! p = Some n.
Proof.
  intros (_ & _ & Hf) Hp. destruct (Hf p) as [H|[H _]]; congruence.
Qed.

Lemma exists_at_true (f : gmap (list string) node) p :
  exists_at f p = true ↔ ∃ n, f !! p = Some n ∧ n ≠ Link.
Proof.
  unfold exists_at. destruct (f !! p) as [[|d|]|]; split;
    try discriminate; try (intros _; eexists; split; [reflexivity | discriminate]);
    try done.
  - intros (n & [= <-] & Hn). done.
  - intros (n & [=] & _).
Qed.

Lemma exists_at_false (f : gmap (list string) node) p :
  exists_at f p = false ↔ f !! p = None ∨ f !! p = Some Link.
Proof.
  unfold exists_at. destruct (f !! p) as [[|d|]|]; split;
    try discriminate; try tauto; intros [?|?]; discriminate.
Qed.

Lemma exists_at_None (f : gmap (list string) node) p :
  f !! p = None → exists_at f p = false.
Proof. intros H. apply exists_at_false. by left. Qed.

Lemma exists_at_dir (f : gmap (list string) node) p d :
  f !! p = Some (Dir d) → exists_at f p = true.
Proof. intros H. unfold exists_at. by rewrite H. Qed.

Lemma only_adds_dirs_exists w w' p :
  only_adds_dirs w w' → exists_at (fs w) p = true → exists_at (fs w') p = true.
Proof.
  intros Hw (n & Hn & Hlink)%exists_at_true.
  apply exists_at_true. exists n. split; [|done].
  by apply (only_adds_dirs_lookup w w').
Qed.

Lemma mkdir_error_None (f : gmap (list string) node) p :
  mkdir_error f p = None ↔ f !! p = None ∧ f !! parent p = Some (Dir true).
Proof.
  unfold mkdir_error. destruct (f !! p) as [n|].
  - split; [discriminate | by intros [? _]].
  - destruct (f !! parent p) as [[|[]|]|];
      (split; [intros ? | intros [_ ?]]; (done || discriminate)).
Qed.

(** A successful [mkdir] puts a writable directory at [p], under a parent
    that is one, and touches nothing else. *)
Lemma mkdir_ok p w w' :
  mkdir p w = (Ok tt, w') →
  fs w !! p = None ∧ fs w !! parent p = Some (Dir true)
  ∧ w' = World (<[p := Dir true]> (fs w)) (stdout w) (calls w).
Proof.
  unfold mkdir. destruct (mkdir_error (fs w) p) eqn:He; [discriminate |].
  apply mkdir_error_None in He as [? ?]. by intros [= <-].
Qed.

(** A failing [mkdir] changes nothing. *)
Lemma mkdir_raise p w e w' :
  mkdir p w = (Raise e, w') →
  w' = w ∧ ∃ oe, mkdir_error (fs w) p = Some oe ∧ e = OSError oe.
Proof.
  unfold mkdir. destruct (mkdir_error (fs w) p) as [oe|]; [|discriminate].
  intros [= <- <-]. eauto.
Qed.

Lemma mkdir_only_adds p w : only_adds_dirs w (mkdir p w).2.
Proof.
  destruct (mkdir p w) as [[[]|e] w'] eqn:Hm.
  - apply mkdir_ok in Hm as (Hp & _ & ->). repeat split. intros q. cbn.
    destruct (decide (p = q)) as [<-|Hne].
    + right. by rewrite lookup_insert_eq.
    + left. by rewrite lookup_insert_ne.
  - apply mkdir_raise in Hm as [-> _]. reflexivity.
Qed.

Lemma makedirs_rev_only_adds rname w : only_adds_dirs w (makedirs_rev rname w).2.
Proof.
  revert w. induction rname as [|tail rhead IH]; intros w.
  - apply mkdir_only_adds.
  - cbn [makedirs_rev]. unfold bind, path_exists, try_except, ret, raise.
    destruct (rev rhead) as [|h t] eqn:Hhead.
    + apply mkdir_only_adds.
    + destruct (exists_at (fs w) (h :: t)); cbn [negb].
      * apply mkdir_only_adds.
      * specialize (IH w).
        destruct (makedirs_rev rhead w) as [[[]|e] w1]; cbn [snd] in *.
        -- etrans; [exact IH | apply mkdir_only_adds].
        -- destruct e as [| |[]]; try exact IH.
           etrans; [exact IH | apply mkdir_only_adds].
Qed.

(** [os.makedirs] raises nothing but operating-system errors. *)
Lemma makedirs_rev_raises_os_error rname w e w' :
  makedirs_rev rname w = (Raise e, w') → ∃ oe, e = OSError oe.
Proof.
  assert (∀ p w0 e0 w0', mkdir p w0 = (Raise e0, w0') → ∃ oe, e0 = OSError oe)
    as Hmk.
  { intros p w0 e0 w0' (_ & oe & _ & ->)%mkdir_raise. eauto. }
  revert w e w'. induction rname as [|tail rhead IH]; intros w e w'.
  - apply Hmk.
  - cbn [makedirs_rev]. unfold bind, path_exists, try_except, ret, raise.
    destruct (rev rhead) as [|h t]; [apply Hmk |].
    destruct (exists_at (fs w) (h :: t)); cbn [negb]; [apply Hmk |].
    destruct (makedirs_rev rhead w) as [[[]|e1] w1] eqn:Hrec; [apply Hmk |].
    destruct (IH _ _ _ Hrec) as [oe ->].
    destruct oe; try (intros [= <- <-]; eauto). apply Hmk.
Qed.

(** When [os.makedirs] returns, the directory is there and so is its
    parent. *)
Lemma makedirs_rev_ok rname w w' :
  makedirs_rev rname w = (Ok tt, w') →
  fs w' !! rev rname = Some (Dir true)
  ∧ fs w' !! parent (rev rname) = Some (Dir true).
Proof.
  assert (∀ w1, mkdir (rev rname) w1 = (Ok tt, w') →
    fs w' !! rev rname = Some (Dir true)
    ∧ fs w' !! parent (rev rname) = Some (Dir true)) as Hlast.
  { intros w1 Hm. apply mkdir_ok in Hm as (Hp & Hpar & ->). cbn.
    rewrite lookup_insert_eq. split; [done |].
    rewrite lookup_insert_ne; [done | congruence]. }
  destruct rname as [|tail rhead]; [apply Hlast |].
  cbn [makedirs_rev]. unfold bind, path_exists, try_except, ret, raise.
  destruct (rev rhead) as [|h t]; [apply Hlast |].
  destruct (exists_at (fs w) (h :: t)); cbn [negb]; [apply Hlast |].
  destruct (makedirs_rev rhead w) as [[[]|e] w1]; [apply Hlast | ].
  destruct e as [| |[]]; try discriminate. apply Hlast.
Qed.

(** Under a parent that exists [os.makedirs] is [os.mkdir]. *)
Lemma makedirs_under_parent name dir w :
  exists_at (fs w) [dir] = true →
  makedirs_rev [name; dir] w = mkdir [dir; name] w.
Proof.
  intros Hdir. cbn [makedirs_rev rev app].
  unfold bind, path_exists, try_except, ret, raise. by rewrite Hdir.
Qed.



Lemma os_path_exists_quartus w :
  os_path_exists "../quartus" w = (Ok (exists_at (fs w) [".."; "quartus"]), w).
Proof. reflexivity. Qed.

Lemma os_path_exists_SIM_DIR w :
  os_path_exists SIM_DIR w = (Ok (exists_at (fs w) [".."; "sim"]), w).
Proof. reflexivity. Qed.

Lemma ensure_dirs_unfold w :
  ensure_dirs w =
    match (if exists_at (fs w) [".."; "quartus"] then (Ok tt, w)
           else makedirs_rev ["quartus"; ".."] w) with
    | (Ok _, w1) =>
        if exists_at (fs w1) [".."; "sim"] then (Ok tt, w1)
        else makedirs_rev ["sim"; ".."] w1
    | (Raise e, w1) => (Raise e, w1)
    end.
Proof.
  unfold ensure_dirs, bind. rewrite os_path_exists_quartus.
  change (os_makedirs "../quartus") with (makedirs_rev ["quartus"; ".."]).
  change (os_makedirs SIM_DIR) with (makedirs_rev ["sim"; ".."]).
  destruct (exists_at (fs w) [".."; "quartus"]); cbn [negb].
  - unfold ret at 1. rewrite os_path_exists_SIM_DIR.
    destruct (exists_at (fs w) [".."; "sim"]); reflexivity.
  - destruct (makedirs_rev ["quartus"; ".."] w) as [[[]|e] w1]; [|reflexivity].
    rewrite os_path_exists_SIM_DIR.
    destruct (exists_at (fs w1) [".."; "sim"]); reflexivity.
Qed.

Lemma ensure_dirs_only_adds w : only_adds_dirs w (ensure_dirs w).2.
Proof.
  rewrite ensure_dirs_unfold.
  assert (∃ r1 w1, (if exists_at (fs w) [".."; "quartus"] then (Ok tt, w)
             else makedirs_rev ["quartus"; ".."] w) = (r1, w1)
           ∧ only_adds_dirs w w1) as (r1 & w1 & -> & H1).
  { destruct (exists_at (fs w) [".."; "quartus"]).
    - by exists (Ok tt), w.
    - pose proof (makedirs_rev_only_adds ["quartus"; ".."] w) as H.
      destruct (makedirs_rev ["quartus"; ".."] w) as [r1 w1]. eauto. }
  destruct r1 as [[]|e]; [|exact H1].
  destruct (exists_at (fs w1) [".."; "sim"]); [exact H1 |].
  etrans; [exact H1 | apply makedirs_rev_only_adds].
Qed.

Lemma ensure_dirs_calls w : calls (ensure_dirs w).2 = calls w.
Proof. apply ensure_dirs_only_adds. Qed.

Lemma ensure_dirs_raises_os_error w e w' :
  ensure_dirs w = (Raise e, w') → ∃ oe, e = OSError oe.
Proof.
  rewrite ensure_dirs_unfold.
  destruct (exists_at (fs w) [".."; "quartus"]).
  - destruct (exists_at (fs w) [".."; "sim"]); [discriminate |].
    apply makedirs_rev_raises_os_error.
  - destruct (makedirs_rev ["quartus"; ".."] w) as [[[]|e1] w1] eqn:Hq.
    + destruct (exists_at (fs w1) [".."; "sim"]); [discriminate |].
      apply makedirs_rev_raises_os_error.
    + intros [= <- <-]. by eapply makedirs_rev_raises_os_error.
Qed.

(** One half of [ensure_dirs]: the test and the creation of [dir/name]. *)
Lemma ensure_one_dir name dir w w' :
  (if exists_at (fs w) [dir; name] then (Ok tt, w)
   else makedirs_rev [name; dir] w) = (Ok tt, w') →
  exists_at (fs w') [dir; name] = true
  ∧ only_adds_dirs w w'
  ∧ (exists_at (fs w) [dir; name] = true → w' = w)
  ∧ (exists_at (fs w) [dir; name] = false →
     fs w' !! [dir; name] = Some (Dir true) ∧ fs w' !! [dir] = Some (Dir true)).
Proof.
  destruct (exists_at (fs w) [dir; name]) eqn:He.
  - intros [= <-]. split; [done |]. split; [reflexivity |]. split; [done |].
    discriminate.
  - intros Hm. pose proof (makedirs_rev_only_adds [name; dir] w) as Hadds.
    rewrite Hm in Hadds. apply makedirs_rev_ok in Hm as [Hnew Hpar].
    cbn in Hnew, Hpar. split; [by eapply exists_at_dir |].
    split; [exact Hadds |]. split; [discriminate | done].
Qed.

Lemma ensure_dirs_noop w :
  exists_at (fs w) (components "../quartus") = true →
  exists_at (fs w) (components SIM_DIR) = true →
  ensure_dirs w = (Ok tt, w).
Proof.
  rewrite components_quartus, components_SIM_DIR. intros Hq Hs.
  rewrite ensure_dirs_unfold, Hq, Hs. reflexivity.
Qed.

Lemma ensure_dirs_ok w w' :
  ensure_dirs w = (Ok tt, w') →
  exists_at (fs w') (components "../quartus") = true
  ∧ exists_at (fs w') (components SIM_DIR) = true
  ∧ only_adds_dirs w w'
  ∧ (∀ d, d ∈ [components "../quartus"; components SIM_DIR] →
       fs w !! d = None →
       fs w' !! d = Some (Dir true) ∧ fs w' !! parent d = Some (Dir true)).
Proof.
  rewrite components_quartus, components_SIM_DIR.
  intros Hrun. pose proof (ensure_dirs_only_adds w) as Hadds.
  rewrite Hrun in Hadds. cbn [snd] in Hadds.
  rewrite ensure_dirs_unfold in Hrun.
  destruct (if exists_at (fs w) [".."; "quartus"] then (Ok tt, w)
            else makedirs_rev ["quartus"; ".."] w) as [[[]|e] w1] eqn:Hq;
    [|discriminate].
  apply ensure_one_dir in Hq as (Hq1 & Hadd1 & Hsame1 & Hnew1).
  apply ensure_one_dir in Hrun as (Hs2 & Hadd2 & Hsame2 & Hnew2).
  split; [by apply (only_adds_dirs_exists w1 w') |]. split; [done |].
  split; [done |].
  intros d Hd Hnone.
  apply elem_of_cons in Hd as [->|Hd];
    [|apply elem_of_cons in Hd as [->|Hd]; [|by apply elem_of_nil in Hd]].
  - destruct (Hnew1 (exists_at_None _ _ Hnone)) as [Hdir Hpar].
    split; by apply (only_adds_dirs_lookup w1 w').
  - split.
    + apply exists_at_true in Hs2 as (n & Hn & _).
      destruct Hadds as (_ & _ & Hf). destruct (Hf [".."; "sim"]) as [?|[_ ?]];
        congruence.
    + cbn [parent removelast].
      destruct (exists_at (fs w) [".."; "quartus"]) eqn:Hquartus.
      * assert (w1 = w) as -> by (by apply Hsame1).
        by apply Hnew2, exists_at_None.
      * destruct (Hnew1 eq_refl) as [_ Hpar].
        by apply (only_adds_dirs_lookup w1 w').
Qed.




(** ** The two simulations *)

Section Simulation.

Variable spawn : list string → filesystem → os_error + Z * filesystem.

Lemma issued_app {A} (m : M A) w l :
  calls (m w).2 = calls w ++ l → issued m w = l.
Proof. intros H. unfold issued. rewrite H. apply drop_app_length. Qed.

Lemma run_command_cases cmd w r w' :
  run_command spawn cmd w = (r, w') →
  ∃ s, calls w' = calls w ++ [Invocation cmd s]
       ∧ ((s = Some 0 ∧ r = Ok tt) ∨ (∃ e, r = Raise e ∧ failed cmd s e)).
Proof.
  destruct r as [[]|e]; intros Hrun.
  - apply run_command_ok in Hrun as (f' & _ & ->). exists (Some 0). eauto.
  - apply run_command_raise in Hrun as [(rc & Hrc & -> & Hc)|(oe & -> & Hc)].
    + exists (Some rc). split; [done |]. right. eexists. split; [done |].
      by constructor.
    + exists None. split; [done |]. right. eexists. split; [done |].
      constructor.
Qed.

Lemma compile_steps_unfold w :
  compile_steps spawn w =
    match ensure_dirs w with
    | (Ok _, w1) =>
        match run_command spawn vlib_cmd w1 with
        | (Ok _, w2) => run_command spawn vlog_cmd w2
        | (Raise e, w2) => (Raise e, w2)
        end
    | (Raise e, w1) => (Raise e, w1)
    end.
Proof. reflexivity. Qed.

Lemma compile_steps_trace w :
  ∃ l, calls (compile_steps spawn w).2 = calls w ++ l
       ∧ compile_trace (compile_steps spawn w).1 l.
Proof.
  rewrite compile_steps_unfold. pose proof (ensure_dirs_calls w) as Hprep.
  destruct (ensure_dirs w) as [[[]|e] w1]; cbn [snd] in Hprep.
  2:{ exists []. rewrite app_nil_r. split; [done | constructor]. }
  destruct (run_command spawn vlib_cmd w1) as [r2 w2] eqn:Hvlib.
  apply run_command_cases in Hvlib as (s2 & Hc2 & [[-> ->]|(e & -> & Hf)]).
  2:{ exists [Invocation vlib_cmd s2].
      split; [cbn; by rewrite Hc2, Hprep | by constructor]. }
  destruct (run_command spawn vlog_cmd w2) as [r3 w3] eqn:Hvlog.
  apply run_command_cases in Hvlog as (s3 & Hc3 & [[-> ->]|(e & -> & Hf)]).
  - exists [Invocation vlib_cmd (Some 0); Invocation vlog_cmd (Some 0)].
    split; [|constructor]. cbn.
    rewrite Hc3, Hc2, Hprep, <- app_assoc. reflexivity.
  - exists [Invocation vlib_cmd (Some 0); Invocation vlog_cmd s3].
    split; [|by constructor]. cbn.
    rewrite Hc3, Hc2, Hprep, <- app_assoc. reflexivity.
Qed.

Lemma then_run_trace final w :
  ∃ l, calls ((compile_steps spawn ;;; run_command spawn final) w).2
         = calls w ++ l
       ∧ run_trace final
           ((compile_steps spawn ;;; run_command spawn final) w).1 l
       ∧ take 2 l = issued (compile_steps spawn) w.
Proof.
  destruct (compile_steps_trace w) as (l & Hcalls & Htrace).
  rewrite (issued_app _ _ _ Hcalls). unfold bind.
  destruct (compile_steps spawn w) as [[[]|e] w1]; cbn [fst snd] in *.
  - inversion Htrace; subst.
    destruct (run_command spawn final w1) as [r w2] eqn:Hrun.
    apply run_command_cases in Hrun as (s & Hc & [[-> ->]|(e & -> & Hf)]).
    + exists [Invocation vlib_cmd (Some 0); Invocation vlog_cmd (Some 0);
              Invocation final (Some 0)].
      split; [|split; [constructor | reflexivity]]. cbn.
      rewrite Hc, Hcalls, <- app_assoc. reflexivity.
    + exists [Invocation vlib_cmd (Some 0); Invocation vlog_cmd (Some 0);
              Invocation final s].
      split; [|split; [by constructor | reflexivity]]. cbn.
      rewrite Hc, Hcalls, <- app_assoc. reflexivity.
  - exists l. split; [done |]. split; [by constructor |].
    inversion Htrace; reflexivity.
Qed.

Lemma simulate_factors w :
  simulate spawn w =
    (compile_steps spawn ;;;
     run_command spawn
       (vsim_batch_cmd (os_path_join SIM_DIR "simulation.log")
                       (os_path_join SIM_DIR "waveform.wlf"))) w.
Proof.
  unfold simulate, compile_steps, bind, vlib_cmd.
  destruct (ensure_dirs w) as [[[]|e] w1]; [|reflexivity].
  destruct (run_command spawn ["vlib"; SIM_DIR] w1) as [[[]|e] w2];
    reflexivity.
Qed.

Lemma simulate_gui_factors w :
  simulate_gui spawn w =
    (compile_steps spawn ;;; run_command spawn vsim_gui_cmd) w.
Proof.
  unfold simulate_gui, compile_steps, bind, vlib_cmd.
  destruct (ensure_dirs w) as [[[]|e] w1]; [|reflexivity].
  destruct (run_command spawn ["vlib"; SIM_DIR] w1) as [[[]|e] w2];
    reflexivity.
Qed.

Lemma simulate_trace w :
  ∃ l, calls (simulate spawn w).2 = calls w ++ l
       ∧ run_trace
           (vsim_batch_cmd (os_path_join SIM_DIR "simulation.log")
                           (os_path_join SIM_DIR "waveform.wlf"))
           (simulate spawn w).1 l.
Proof.
  rewrite simulate_factors.
  destruct (then_run_trace
              (vsim_batch_cmd (os_path_join SIM_DIR "simulation.log")
                              (os_path_join SIM_DIR "waveform.wlf")) w)
    as (l & ? & ? & _).
  eauto.
Qed.

End Simulation.

Lemma main_simulate
    (spawn : list string → filesystem → os_error + Z * filesystem)
    script rest w :
  main spawn (script :: "simulate" :: rest) w = simulate spawn w.
Proof. by rewrite main_dispatch. Qed.

(** C1, as the code has it: in a run in which the directory preparation
    succeeds and the library creation and the compilation both exit with
    status zero, the token [simulate] issues exactly three invocations:
    [vlib] on the simulation directory, [vlog] with every configured
    source file in list order, and the batch-mode simulator run, whose
    log path is [../sim/simulation.log] and whose waveform path is
    [../sim/waveform.wlf], both entries of the simulation directory. *)
Theorem simulate_three_invocations
    (spawn : list string → filesystem → os_error + Z * filesystem)
    (script : string) (rest : list string) (w w1 : world)
    (f2 f3 : gmap (list string) node) :
  ensure_dirs w = (Ok tt, w1) →
  spawn ["vlib"; SIM_DIR] (fs w1) = inr (0, f2) →
  spawn (["vlog"; "-work"; SIM_DIR] ++ VERILOG_FILES) f2 = inr (0, f3) →
  ∃ status,
    issued (main spawn (script :: "simulate" :: rest)) w =
      [ Invocation ["vlib"; SIM_DIR] (Some 0);
        Invocation (["vlog"; "-work"; SIM_DIR] ++ VERILOG_FILES) (Some 0);
        Invocation
          (["vsim"] ++ VSIM_OPTIONS ++
           ["-c"; "-do"; "log -r /* ; run -all; quit"; TOP_MODULE;
            "-work"; SIM_DIR;
            "-l"; os_path_join SIM_DIR "simulation.log";
            "-wlf"; os_path_join SIM_DIR "waveform.wlf"])
          status ]
    ∧ os_path_join SIM_DIR "simulation.log" = "../sim/simulation.log"
    ∧ os_path_join SIM_DIR "waveform.wlf" = "../sim/waveform.wlf"
    ∧ components (os_path_join SIM_DIR "simulation.log") =
        components SIM_DIR ++ ["simulation.log"]
    ∧ components (os_path_join SIM_DIR "waveform.wlf") =
        components SIM_DIR ++ ["waveform.wlf"]
    ∧ VERILOG_FILES = ["../src/d1_design.v"; "../src/d1_test.v"].
Proof.
  intros Hprep Hvlib Hvlog.
  pose proof (ensure_dirs_calls w) as Hcalls. rewrite Hprep in Hcalls.
  cbn [snd] in Hcalls.
  assert (∃ w3, simulate spawn w =
      run_command spawn
        (vsim_batch_cmd (os_path_join SIM_DIR "simulation.log")
                        (os_path_join SIM_DIR "waveform.wlf")) w3
      ∧ calls w3 = calls w ++ [Invocation vlib_cmd (Some 0);
                               Invocation vlog_cmd (Some 0)])
    as (w3 & Hsim & Hcalls3).
  { rewrite simulate_factors. unfold bind.
    rewrite compile_steps_unfold, Hprep.
    rewrite (run_command_unfold spawn vlib_cmd w1). cbn zeta.
    unfold vlib_cmd at 1. rewrite Hvlib. cbn [Z.eqb].
    rewrite (run_command_unfold spawn vlog_cmd). cbn zeta. cbn [fs].
    unfold vlog_cmd at 1. rewrite Hvlog. cbn [Z.eqb].
    eexists. split; [reflexivity |]. cbn [calls].
    by rewrite Hcalls, <- app_assoc. }
  destruct (run_command_calls spawn
    (vsim_batch_cmd (os_path_join SIM_DIR "simulation.log")
                    (os_path_join SIM_DIR "waveform.wlf")) w3)
    as [status Hlast].
  exists status. split; [|repeat split].
  apply issued_app. rewrite main_simulate, Hsim, Hlast, Hcalls3.
  by rewrite <- app_assoc.
Qed.

Lemma simulate_three_invocations_witness :
  ∃ status,
    issued (main Examples.tools_succeed ["sim.py"; "simulate"]) Examples.fresh =
      [ Invocation ["vlib"; SIM_DIR] (Some 0);
        Invocation (["vlog"; "-work"; SIM_DIR] ++ VERILOG_FILES) (Some 0);
        Invocation
          (["vsim"] ++ VSIM_OPTIONS ++
           ["-c"; "-do"; "log -r /* ; run -all; quit"; TOP_MODULE;
            "-work"; SIM_DIR;
            "-l"; os_path_join SIM_DIR "simulation.log";
            "-wlf"; os_path_join SIM_DIR "waveform.wlf"])
          status ]
    ∧ os_path_join SIM_DIR "simulation.log" = "../sim/simulation.log"
    ∧ os_path_join SIM_DIR "waveform.wlf" = "../sim/waveform.wlf"
    ∧ components (os_path_join SIM_DIR "simulation.log") =
        components SIM_DIR ++ ["simulation.log"]
    ∧ components (os_path_join SIM_DIR "waveform.wlf") =
        components SIM_DIR ++ ["waveform.wlf"]
    ∧ VERILOG_FILES = ["../src/d1_design.v"; "../src/d1_test.v"].
Proof.
  apply (simulate_three_invocations Examples.tools_succeed "sim.py" []
           Examples.fresh (ensure_dirs Examples.fresh).2
           (fs (ensure_dirs Examples.fresh).2)
           (fs (ensure_dirs Examples.fresh).2)).
  - vm_compute. reflexivity.
  - reflexivity.
  - reflexivity.
Defined.

(** C1 as stated fails: when [vlib] exits with status one, [simulate]
    stops there and one invocation has been issued, not three. *)
Lemma simulate_failed_vlib_one_invocation :
  issued (main (Examples.tool_fails "vlib" 1) ["sim.py"; "simulate"])
    Examples.fresh = [Invocation ["vlib"; "../sim"] (Some 1)]
  ∧ ¬ (∃ i1 i2 i3,
         issued (main (Examples.tool_fails "vlib" 1) ["sim.py"; "simulate"])
           Examples.fresh = [i1; i2; i3]).
Proof.
  assert (issued (main (Examples.tool_fails "vlib" 1) ["sim.py"; "simulate"])
            Examples.fresh = [Invocation ["vlib"; "../sim"] (Some 1)]) as H
    by (vm_compute; reflexivity).
  split; [exact H |]. rewrite H. intros (i1 & i2 & i3 & [=]).
Qed.

(** C2: in every run of [simulate] in which the second invocation exits
    with a non-zero status, that invocation is the compilation, it is the
    last one issued, and the run ends with the error of that invocation
    propagated, so that the process exits with status one. *)
Theorem failed_compilation_stops_simulate
    (spawn : list string → filesystem → os_error + Z * filesystem)
    (script : string) (rest : list string) (w w' : world) (r : result unit)
    (i1 : invocation) (cmd : list string) (rc : Z) (more : list invocation) :
  main spawn (script :: "simulate" :: rest) w = (r, w') →
  calls w' = calls w ++ i1 :: Invocation cmd (Some rc) :: more →
  rc ≠ 0 →
  more = []
  ∧ cmd = ["vlog"; "-work"; SIM_DIR] ++ VERILOG_FILES
  ∧ r = Raise (CalledProcessError rc cmd)
  ∧ run_script spawn (script :: "simulate" :: rest) w = (1, w').
Proof.
  intros Hrun Hcalls Hrc. unfold run_script. rewrite Hrun.
  rewrite main_simulate in Hrun.
  destruct (simulate_trace spawn w) as (l & Hl & Htrace).
  rewrite Hrun in Hl, Htrace. cbn [fst snd] in Hl, Htrace.
  rewrite Hcalls in Hl. apply app_inv_head in Hl. subst l.
  inversion Htrace as [e l Hstop| |]; subst.
  - inversion Hstop as [|? ? ?|s e' Hfail|]; subst.
    inversion Hfail; subst. done.
  - contradiction.
  - contradiction.
Qed.

Lemma failed_compilation_stops_simulate_witness :
  (main (Examples.tool_fails "vlog" 2) ["sim.py"; "simulate"] Examples.fresh).1
    = Raise (CalledProcessError 2 vlog_cmd)
  ∧ run_script (Examples.tool_fails "vlog" 2) ["sim.py"; "simulate"]
      Examples.fresh
    = (1, (main (Examples.tool_fails "vlog" 2) ["sim.py"; "simulate"]
             Examples.fresh).2).
Proof.
  destruct (failed_compilation_stops_simulate
              (Examples.tool_fails "vlog" 2) "sim.py" [] Examples.fresh
              (main (Examples.tool_fails "vlog" 2) ["sim.py"; "simulate"]
                 Examples.fresh).2
              (main (Examples.tool_fails "vlog" 2) ["sim.py"; "simulate"]
                 Examples.fresh).1
              (Invocation vlib_cmd (Some 0)) vlog_cmd 2 [])
    as (_ & _ & Hr & Hstatus).
  - vm_compute. reflexivity.
  - vm_compute. reflexivity.
  - lia.
  - split; [exact Hr | exact Hstatus].
Defined.

(** Membership in an explicit list of strings, settled by comparing. *)
Ltac list_of_strings_cases H :=
  cbv [vsim_gui_cmd VSIM_OPTIONS TOP_MODULE SIM_DIR app] in H;
  rewrite ?elem_of_cons, elem_of_nil in H;
  repeat destruct H as [H|H]; (discriminate || contradiction).

(** When the preparation, the library creation and the compilation
    succeed, the two simulations differ in their third invocation only. *)
Lemma both_simulations_issue_three
    (spawn : list string → filesystem → os_error + Z * filesystem)
    (final : list string) (w w1 : world) (f2 f3 : gmap (list string) node) :
  ensure_dirs w = (Ok tt, w1) →
  spawn vlib_cmd (fs w1) = inr (0, f2) →
  spawn vlog_cmd f2 = inr (0, f3) →
  ∃ status,
    issued (compile_steps spawn ;;; run_command spawn final) w =
      [Invocation vlib_cmd (Some 0); Invocation vlog_cmd (Some 0);
       Invocation final status]
    ∧ status = match spawn final f3 with
               | inr (rc, _) => Some rc
               | inl _ => None
               end.
Proof.
  intros Hprep Hvlib Hvlog.
  pose proof (ensure_dirs_only_adds w) as (Hout & Hcalls & _).
  rewrite Hprep in Hout, Hcalls. cbn [snd] in Hout, Hcalls.
  eexists. split; [|reflexivity]. apply issued_app.
  unfold bind. rewrite compile_steps_unfold, Hprep.
  rewrite (run_command_unfold spawn vlib_cmd w1). cbn zeta.
  rewrite Hvlib. cbn [Z.eqb].
  rewrite (run_command_unfold spawn vlog_cmd). cbn zeta. cbn [fs].
  rewrite Hvlog. cbn [Z.eqb].
  rewrite (run_command_unfold spawn final). cbn zeta. cbn [fs calls].
  rewrite Hcalls.
  destruct (spawn final f3) as [oe|[rc f4]]; cbn [snd calls];
    by rewrite <- !app_assoc.
Qed.

(** C9: [simulate_gui] and [simulate] are the same shared steps
    (directory preparation, library creation, compilation) followed by one
    simulator run, so in every run their first two invocations agree
    token for token.  When those steps succeed both issue [vlib] and
    [vlog], with the same tokens, and then their simulator run; the
    one of [simulate_gui] is [vsim -vopt -voptargs=+acc -do "log -r /*"
    d1_test -work ../sim]: it has no [-c] flag, no [-l] or [-wlf] option,
    no log or waveform path, and a [-do] script that starts logging and
    neither runs nor quits. *)
Theorem simulate_gui_same_steps_no_batch_flags
    (spawn : list string → filesystem → os_error + Z * filesystem)
    (w : world) :
  simulate spawn w =
    (compile_steps spawn ;;;
     run_command spawn
       (vsim_batch_cmd (os_path_join SIM_DIR "simulation.log")
                       (os_path_join SIM_DIR "waveform.wlf"))) w
  ∧ simulate_gui spawn w =
      (compile_steps spawn ;;; run_command spawn vsim_gui_cmd) w
  ∧ take 2 (issued (simulate_gui spawn) w) = take 2 (issued (simulate spawn) w)
  ∧ run_trace vsim_gui_cmd (simulate_gui spawn w).1
      (issued (simulate_gui spawn) w)
  ∧ (∀ w1 f2 f3,
       ensure_dirs w = (Ok tt, w1) →
       spawn ["vlib"; SIM_DIR] (fs w1) = inr (0, f2) →
       spawn (["vlog"; "-work"; SIM_DIR] ++ VERILOG_FILES) f2 = inr (0, f3) →
       ∃ batch_status gui_status,
         issued (simulate spawn) w =
           [ Invocation ["vlib"; SIM_DIR] (Some 0);
             Invocation (["vlog"; "-work"; SIM_DIR] ++ VERILOG_FILES) (Some 0);
             Invocation
               (vsim_batch_cmd (os_path_join SIM_DIR "simulation.log")
                               (os_path_join SIM_DIR "waveform.wlf"))
               batch_status ]
         ∧ issued (simulate_gui spawn) w =
             [ Invocation ["vlib"; SIM_DIR] (Some 0);
               Invocation (["vlog"; "-work"; SIM_DIR] ++ VERILOG_FILES)
                 (Some 0);
               Invocation
                 ["vsim"; "-vopt"; "-voptargs=+acc"; "-do"; "log -r /*";
                  "d1_test"; "-work"; "../sim"]
                 gui_status ])
  ∧ vsim_gui_cmd =
      ["vsim"; "-vopt"; "-voptargs=+acc"; "-do"; "log -r /*"; "d1_test";
       "-work"; "../sim"]
  ∧ ("-c" ∉ vsim_gui_cmd) ∧ ("-l" ∉ vsim_gui_cmd) ∧ ("-wlf" ∉ vsim_gui_cmd)
  ∧ (os_path_join SIM_DIR "simulation.log" ∉ vsim_gui_cmd)
  ∧ (os_path_join SIM_DIR "waveform.wlf" ∉ vsim_gui_cmd)
  ∧ do_script vsim_gui_cmd = Some "log -r /*"
  ∧ has_substring "log" "log -r /*" = true
  ∧ has_substring "run" "log -r /*" = false
  ∧ has_substring "quit" "log -r /*" = false.
Proof.
  split; [apply simulate_factors |]. split; [apply simulate_gui_factors |].
  destruct (then_run_trace spawn vsim_gui_cmd w) as (lg & Hg & Htg & Hpg).
  destruct (then_run_trace spawn
              (vsim_batch_cmd (os_path_join SIM_DIR "simulation.log")
                              (os_path_join SIM_DIR "waveform.wlf")) w)
    as (lb & Hb & _ & Hpb).
  assert (issued (simulate_gui spawn) w = lg) as Hig.
  { apply issued_app. by rewrite simulate_gui_factors. }
  assert (issued (simulate spawn) w = lb) as Hib.
  { apply issued_app. by rewrite simulate_factors. }
  split; [congruence |].
  split; [by rewrite Hig, simulate_gui_factors |].
  split.
  { intros w1 f2 f3 Hprep Hvlib Hvlog.
    destruct (both_simulations_issue_three spawn
                (vsim_batch_cmd (os_path_join SIM_DIR "simulation.log")
                                (os_path_join SIM_DIR "waveform.wlf"))
                w w1 f2 f3 Hprep Hvlib Hvlog) as (sb & Hsb & _).
    destruct (both_simulations_issue_three spawn vsim_gui_cmd
                w w1 f2 f3 Hprep Hvlib Hvlog) as (sg & Hsg & _).
    exists sb, sg. split.
    - unfold issued. rewrite simulate_factors. exact Hsb.
    - unfold issued. rewrite simulate_gui_factors. exact Hsg. }
  repeat split; try (intros H; list_of_strings_cases H).
Qed.

Lemma simulate_gui_same_steps_no_batch_flags_witness :
  issued (simulate Examples.tools_write) Examples.fresh =
    [ Invocation ["vlib"; "../sim"] (Some 0);
      Invocation ["vlog"; "-work"; "../sim"; "../src/d1_design.v";
                  "../src/d1_test.v"] (Some 0);
      Invocation
        ["vsim"; "-vopt"; "-voptargs=+acc"; "-c"; "-do";
         "log -r /* ; run -all; quit"; "d1_test"; "-work"; "../sim";
         "-l"; "../sim/simulation.log"; "-wlf"; "../sim/waveform.wlf"]
        (Some 0) ]
  ∧ issued (simulate_gui Examples.tools_write) Examples.fresh =
    [ Invocation ["vlib"; "../sim"] (Some 0);
      Invocation ["vlog"; "-work"; "../sim"; "../src/d1_design.v";
                  "../src/d1_test.v"] (Some 0);
      Invocation
        ["vsim"; "-vopt"; "-voptargs=+acc"; "-do"; "log -r /*"; "d1_test";
         "-work"; "../sim"]
        (Some 0) ].
Proof.
  destruct (simulate_gui_same_steps_no_batch_flags Examples.tools_write
              Examples.fresh) as (_ & _ & _ & _ & Hthree & _).
  destruct (Hthree (ensure_dirs Examples.fresh).2
              (<[ [".."; "sim"; "_info"] := File ]>
                 (fs (ensure_dirs Examples.fresh).2))
              (<[ [".."; "sim"; "_info"] := File ]>
                 (fs (ensure_dirs Examples.fresh).2)))
    as (sb & sg & Hb & Hg).
  - vm_compute. reflexivity.
  - reflexivity.
  - reflexivity.
  - assert (issued (simulate Examples.tools_write) Examples.fresh !! 2%nat
            = Some (Invocation
                 (vsim_batch_cmd (os_path_join SIM_DIR "simulation.log")
                                 (os_path_join SIM_DIR "waveform.wlf"))
                 (Some 0))) as Hb2 by (vm_compute; reflexivity).
    assert (issued (simulate_gui Examples.tools_write) Examples.fresh !! 2%nat
            = Some (Invocation vsim_gui_cmd (Some 0))) as Hg2
      by (vm_compute; reflexivity).
    rewrite Hb in Hb2. rewrite Hg in Hg2.
    injection Hb2 as ->. injection Hg2 as ->.
    split; [exact Hb | exact Hg].
Defined.
(** ** Cleaning *)

Lemma subtree_removable_below (f : gmap (list string) node) p q :
  subtree_removable f p = true → p `prefix_of` q →
  subtree_removable f q = true.
Proof.
  unfold subtree_removable. rewrite !bool_decide_eq_true.
  intros Hp Hpq r n Hr Hqr. apply (Hp r n Hr). by etrans.
Qed.

Lemma rmtree_error_None (f : gmap (list string) node) p :
  rmtree_error f p = None ↔
  (∃ d, f !! p = Some (Dir d)) ∧ subtree_removable f p = true.
Proof.
  unfold rmtree_error. destruct (f !! p) as [[|d|]|].
  - split; [discriminate | by intros [[? ?] _]].
  - destruct (subtree_removable f p).
    + split; eauto.
    + split; [discriminate | by intros [_ ?]].
  - split; [discriminate | by intros [[? ?] _]].
  - split; [discriminate | by intros [[? ?] _]].
Qed.

(** A recursive delete never reaches outside the tree it is given. *)
Lemma rmtree_fs_outside (f : gmap (list string) node) p q :
  ¬ p `prefix_of` q → rmtree_fs f p !! q = f !! q.
Proof.
  intros Hout. unfold rmtree_fs. destruct (f !! p) as [[|d|]|]; try done.
  destruct (f !! q) as [n|] eqn:Hq.
  - apply map_lookup_filter_Some. split; [done |]. cbn. by intros [? _].
  - apply map_lookup_filter_None. by left.
Qed.

(** A recursive delete that meets no error leaves nothing of the tree. *)
Lemma rmtree_fs_removes (f : gmap (list string) node) p q :
  rmtree_error f p = None → p `prefix_of` q → rmtree_fs f p !! q = None.
Proof.
  intros [[d Hd] Hrem]%rmtree_error_None Hpq.
  unfold rmtree_fs. rewrite Hd.
  apply map_lookup_filter_None. right. intros n _ Hkeep. apply Hkeep. cbn.
  split; [done |]. by eapply subtree_removable_below.
Qed.

(** A recursive delete of a path that is no directory changes nothing. *)
Lemma rmtree_fs_no_directory (f : gmap (list string) node) p :
  (∀ d, f !! p ≠ Some (Dir d)) → rmtree_fs f p = f.
Proof.
  intros Hp. unfold rmtree_fs. destruct (f !! p) as [[|d|]|]; try done.
  by destruct (Hp d).
Qed.

Lemma clean_unfold w :
  clean w =
    (Ok tt,
     World (rmtree_fs (fs w) (components SIM_DIR))
       (stdout w ++ ["Cleaned simulation directory."]) (calls w)).
Proof.
  unfold clean, bind, shutil_rmtree.
  destruct (rmtree_error (fs w) (components SIM_DIR)); reflexivity.
Qed.

(** C6, as the code has it: when nothing exists at the simulation
    directory, [clean] succeeds, prints the confirmation and changes
    nothing; when the directory exists and the recursive delete meets no
    error, [clean] succeeds, prints the confirmation, leaves nothing at or
    below the simulation directory, so that the existence check answers
    false, and touches nothing outside it. *)
Theorem clean_removes_directory_when_no_error (w : world) :
  (exists_at (fs w) (components SIM_DIR) = false →
   clean w =
     (Ok tt,
      World (fs w) (stdout w ++ ["Cleaned simulation directory."]) (calls w)))
  ∧ (∀ d, fs w !! components SIM_DIR = Some (Dir d) →
     rmtree_error (fs w) (components SIM_DIR) = None →
     ∃ w', clean w = (Ok tt, w')
       ∧ stdout w' = stdout w ++ ["Cleaned simulation directory."]
       ∧ (∀ q, components SIM_DIR `prefix_of` q → fs w' !! q = None)
       ∧ (∀ q, ¬ components SIM_DIR `prefix_of` q → fs w' !! q = fs w !! q)
       ∧ os_path_exists SIM_DIR w' = (Ok false, w')).
Proof.
  split.
  - intros Habsent%exists_at_false. rewrite clean_unfold.
    rewrite rmtree_fs_no_directory; [done |].
    intros d. destruct Habsent; congruence.
  - intros d Hdir Hnoerr. eexists. split; [apply clean_unfold |].
    split; [done |]. split; [|split].
    + intros q Hq. cbn [fs]. by apply rmtree_fs_removes.
    + intros q Hq. cbn [fs]. by apply rmtree_fs_outside.
    + rewrite os_path_exists_SIM_DIR. cbn [fs].
      rewrite <- components_SIM_DIR.
      replace (exists_at _ _) with false; [done |].
      symmetry. apply exists_at_None. by apply rmtree_fs_removes.
Qed.

Lemma clean_removes_directory_when_no_error_witness :
  (∃ w', clean Examples.built = (Ok tt, w')
     ∧ stdout w' = ["Cleaned simulation directory."]
     ∧ fs w' !! [".."; "sim"] = None
     ∧ fs w' !! [".."; "sim"; "waveform.wlf"] = None
     ∧ fs w' !! [".."; "quartus"] = Some (Dir true))
  ∧ clean Examples.fresh =
      (Ok tt, World Examples.fresh_fs ["Cleaned simulation directory."] []).
Proof.
  destruct (clean_removes_directory_when_no_error Examples.built)
    as [_ Hremoves].
  destruct (clean_removes_directory_when_no_error Examples.fresh)
    as [Habsent _].
  split.
  - destruct (Hremoves true) as (w' & Hrun & Hout & Hgone & Hkept & _).
    + vm_compute. reflexivity.
    + vm_compute. reflexivity.
    + exists w'. split; [exact Hrun |]. split; [exact Hout |].
      split; [apply Hgone; reflexivity |].
      split; [apply Hgone; by exists ["waveform.wlf"] |].
      rewrite Hkept; [vm_compute; reflexivity |].
      intros [k Hk]. discriminate Hk.
  - apply Habsent. vm_compute. reflexivity.
Defined.

(** C6 as stated fails: the simulation directory of [Examples.locked]
    exists, its parent is not writable, and after [clean], which succeeds
    and prints its confirmation, the existence check still answers true. *)
Lemma clean_keeps_directory_under_locked_parent :
  fs Examples.locked !! components SIM_DIR = Some (Dir true)
  ∧ ∃ w', clean Examples.locked = (Ok tt, w')
          ∧ stdout w' = ["Cleaned simulation directory."]
          ∧ os_path_exists SIM_DIR w' = (Ok true, w').
Proof.
  split; [vm_compute; reflexivity |].
  eexists. split; [apply clean_unfold |].
  split; vm_compute; reflexivity.
Qed.

(** C10: [clean] never fails.  Whatever the recursive delete meets, no
    error or any error [e], one that [shutil.rmtree] would raise without
    [ignore_errors], the delete returns normally, the confirmation is
    printed after it, and the dispatcher exits with status zero. *)
Theorem clean_suppresses_every_error
    (spawn : list string → filesystem → os_error + Z * filesystem)
    (script : string) (rest : list string) (w : world) :
  clean w =
    (Ok tt,
     World (rmtree_fs (fs w) (components SIM_DIR))
       (stdout w ++ ["Cleaned simulation directory."]) (calls w))
  ∧ (run_script spawn (script :: "clean" :: rest) w).1 = 0
  ∧ (∀ e, rmtree_error (fs w) (components SIM_DIR) = Some e →
       (shutil_rmtree SIM_DIR false w).1 = Raise (OSError e)
       ∧ (shutil_rmtree SIM_DIR true w).1 = Ok tt).
Proof.
  split; [apply clean_unfold |]. split.
  - unfold run_script. rewrite main_dispatch. cbn [String.eqb Ascii.eqb Bool.eqb].
    by rewrite clean_unfold.
  - intros e He. unfold shutil_rmtree. by rewrite He.
Qed.

Lemma clean_suppresses_every_error_witness :
  rmtree_error (fs Examples.locked) (components SIM_DIR) = Some PermissionError
  ∧ (shutil_rmtree SIM_DIR false Examples.locked).1
      = Raise (OSError PermissionError)
  ∧ (clean Examples.locked).1 = Ok tt
  ∧ stdout (clean Examples.locked).2 = ["Cleaned simulation directory."].
Proof.
  destruct (clean_suppresses_every_error Examples.tools_succeed "sim.py" []
              Examples.locked) as (Hclean & _ & Hraise).
  assert (rmtree_error (fs Examples.locked) (components SIM_DIR)
          = Some PermissionError) as Herr by (vm_compute; reflexivity).
  split; [exact Herr |]. split; [apply (Hraise _ Herr) |].
  rewrite Hclean. split; reflexivity.
Defined.

(** * Further properties of the script *)

(** ** More on directory preparation *)

(** [os.mkdir] touches the path it is given, and nothing else. *)
Lemma mkdir_footprint p q w :
  q ≠ p → fs (mkdir p w).2 !! q = fs w !! q.
Proof.
  intros Hne. unfold mkdir. destruct (mkdir_error (fs w) p); [done |].
  cbn. by rewrite lookup_insert_ne.
Qed.

(** With its parent in place, [ensure_dirs] is two tests and at most two
    [mkdir] calls. *)
Lemma ensure_dirs_with_parent w :
  exists_at (fs w) [".."] = true →
  ensure_dirs w =
    match (if exists_at (fs w) [".."; "quartus"] then (Ok tt, w)
           else mkdir [".."; "quartus"] w) with
    | (Ok _, w1) =>
        if exists_at (fs w1) [".."; "sim"] then (Ok tt, w1)
        else mkdir [".."; "sim"] w1
    | (Raise e, w1) => (Raise e, w1)
    end.
Proof.
  intros Hpar. rewrite ensure_dirs_unfold.
  rewrite (makedirs_under_parent "quartus" ".." w Hpar).
  assert (∃ r1 w1, (if exists_at (fs w) [".."; "quartus"] then (Ok tt, w)
             else mkdir [".."; "quartus"] w) = (r1, w1)
           ∧ only_adds_dirs w w1) as (r1 & w1 & -> & H1).
  { destruct (exists_at (fs w) [".."; "quartus"]).
    - by exists (Ok tt), w.
    - pose proof (mkdir_only_adds [".."; "quartus"] w) as H.
      destruct (mkdir [".."; "quartus"] w) as [r1 w1]. eauto. }
  destruct r1 as [[]|e]; [|reflexivity].
  rewrite makedirs_under_parent; [reflexivity |].
  by apply (only_adds_dirs_exists w w1).
Qed.

(** X1: what a failing [ensure_dirs] leaves behind.  With the parent
    directory in place, when [ensure_dirs] raises, the error is an
    operating-system error, nothing was printed and no tool was started,
    the path of the simulation directory holds what it held, and the world
    is exactly as it was, with one exception: a link without a target
    sits at the path of the simulation directory and [../quartus] was
    missing; then [../quartus] has been created before the
    [FileExistsError]. *)
Theorem ensure_dirs_failure_leaves_at_most_quartus (w w' : world) (e : exn) :
  exists_at (fs w) (parent (components SIM_DIR)) = true →
  ensure_dirs w = (Raise e, w') →
  (∃ oe, e = OSError oe)
  ∧ stdout w' = stdout w
  ∧ calls w' = calls w
  ∧ fs w' !! components SIM_DIR = fs w !! components SIM_DIR
  ∧ (w' = w
     ∨ (fs w !! components SIM_DIR = Some Link
        ∧ fs w !! components "../quartus" = None
        ∧ e = OSError FileExistsError
        ∧ fs w' = <[ components "../quartus" := Dir true ]> (fs w))).
Proof.
  rewrite components_quartus, components_SIM_DIR. cbn [parent removelast].
  intros Hpar Hrun.
  destruct (ensure_dirs_raises_os_error _ _ _ Hrun) as [oe ->].
  destruct (ensure_dirs_only_adds w) as (Hout & Hcalls & _).
  rewrite Hrun in Hout, Hcalls. cbn [snd] in Hout, Hcalls.
  split; [eauto |]. split; [done |]. split; [done |].
  rewrite (ensure_dirs_with_parent w Hpar) in Hrun.
  destruct (exists_at (fs w) [".."; "quartus"]) eqn:Hq.
  - destruct (exists_at (fs w) [".."; "sim"]); [discriminate |].
    apply mkdir_raise in Hrun as [-> _]. split; [done | by left].
  - destruct (mkdir [".."; "quartus"] w) as [[[]|e1] w1] eqn:Hmk.
    + apply mkdir_ok in Hmk as (Hnone & Hdir & ->). cbn [fs] in Hrun.
      destruct (exists_at _ [".."; "sim"]) eqn:Hs in Hrun; [discriminate |].
      apply mkdir_raise in Hrun as (-> & oe' & Herr & [= ->]).
      cbn [fs] in *. rewrite lookup_insert_ne by done.
      split; [done |]. right.
      apply exists_at_false in Hs as [Hs|Hs].
      * exfalso.
        assert (mkdir_error (<[ [".."; "quartus"] := Dir true ]> (fs w))
                  [".."; "sim"] = None) as Hok.
        { apply mkdir_error_None. split; [exact Hs |].
          cbn [parent removelast]. by rewrite lookup_insert_ne. }
        congruence.
      * unfold mkdir_error in Herr. rewrite Hs in Herr.
        injection Herr as <-. rewrite lookup_insert_ne in Hs by done. done.
    + injection Hrun as <- <-. apply mkdir_raise in Hmk as [-> _].
      split; [done | by left].
Qed.

Lemma ensure_dirs_failure_leaves_at_most_quartus_witness :
  ensure_dirs Examples.dangling =
    (Raise (OSError FileExistsError),
     World (<[ [".."; "quartus"] := Dir true ]> Examples.dangling_fs) [] [])
  ∧ fs Examples.dangling !! components SIM_DIR = Some Link
  ∧ ensure_dirs Examples.readonly =
      (Raise (OSError PermissionError), Examples.readonly).
Proof.
  assert (ensure_dirs Examples.dangling =
    (Raise (OSError FileExistsError),
     World (<[ [".."; "quartus"] := Dir true ]> Examples.dangling_fs) [] []))
    as Hd by (vm_compute; reflexivity).
  assert (ensure_dirs Examples.readonly =
            (Raise (OSError PermissionError), Examples.readonly))
    as Hr by (vm_compute; reflexivity).
  assert (exists_at (fs Examples.dangling) (parent (components SIM_DIR))
          = true) as Hpd by (vm_compute; reflexivity).
  assert (exists_at (fs Examples.readonly) (parent (components SIM_DIR))
          = true) as Hpr by (vm_compute; reflexivity).
  destruct (ensure_dirs_failure_leaves_at_most_quartus _ _ _ Hpd Hd)
    as (_ & _ & _ & _ & [Hsame|(Hlink & _)]).
  - exfalso. apply (f_equal (λ v, fs v !! [".."; "quartus"])) in Hsame.
    vm_compute in Hsame. discriminate.
  - destruct (ensure_dirs_failure_leaves_at_most_quartus _ _ _ Hpr Hr)
      as (_ & _ & _ & _ & _).
    split; [exact Hd |]. split; [exact Hlink | exact Hr].
Defined.

(** X2: a link without a target makes [ensure_dirs] fail.  Under a
    writable parent directory, [os.path.exists] answers no for such a link
    and [os.makedirs] then finds the name taken: with the link at
    [../quartus], or at [../sim] while [../quartus] exists, [ensure_dirs]
    raises [FileExistsError] and changes nothing; with the link at
    [../sim] and [../quartus] missing, it creates [../quartus] and then
    raises [FileExistsError]. *)
Theorem dangling_link_makes_ensure_dirs_fail (w : world) :
  fs w !! parent (components SIM_DIR) = Some (Dir true) →
  (fs w !! components "../quartus" = Some Link →
   ensure_dirs w = (Raise (OSError FileExistsError), w))
  ∧ (fs w !! components SIM_DIR = Some Link →
     exists_at (fs w) (components "../quartus") = true →
     ensure_dirs w = (Raise (OSError FileExistsError), w))
  ∧ (fs w !! components SIM_DIR = Some Link →
     fs w !! components "../quartus" = None →
     ensure_dirs w =
       (Raise (OSError FileExistsError),
        World (<[ components "../quartus" := Dir true ]> (fs w))
          (stdout w) (calls w))).
Proof.
  rewrite components_quartus, components_SIM_DIR. cbn [parent removelast].
  intros Hpar.
  rewrite (ensure_dirs_with_parent w (exists_at_dir _ _ _ Hpar)).
  split; [|split].
  - intros Hq. unfold exists_at at 1. rewrite Hq.
    unfold mkdir, mkdir_error. by rewrite Hq.
  - intros Hs Hq. rewrite Hq. unfold exists_at. rewrite Hs.
    unfold mkdir, mkdir_error. by rewrite Hs.
  - intros Hs Hq. rewrite (exists_at_None _ _ Hq).
    unfold mkdir at 1.
    assert (mkdir_error (fs w) [".."; "quartus"] = None) as ->
      by (by apply mkdir_error_None).
    cbn [fs]. unfold exists_at. rewrite lookup_insert_ne by done. rewrite Hs.
    unfold mkdir, mkdir_error. cbn [fs].
    rewrite lookup_insert_ne by done. by rewrite Hs.
Qed.

Lemma dangling_link_makes_ensure_dirs_fail_witness :
  ensure_dirs Examples.dangling =
    (Raise (OSError FileExistsError),
     World (<[ [".."; "quartus"] := Dir true ]> Examples.dangling_fs) [] []).
Proof.
  destruct (dangling_link_makes_ensure_dirs_fail Examples.dangling)
    as (_ & _ & Hlate).
  - vm_compute. reflexivity.
  - apply Hlate; vm_compute; reflexivity.
Defined.

Lemma makedirs_two_levels_keeps name dir q w :
  q ≠ [dir] → q ≠ [dir; name] →
  fs (makedirs_rev [name; dir] w).2 !! q = fs w !! q.
Proof.
  intros Hdir Hname. cbn [makedirs_rev rev app].
  unfold bind, path_exists, try_except, ret, raise.
  destruct (exists_at (fs w) [dir]); cbn [negb].
  - by apply mkdir_footprint.
  - pose proof (mkdir_footprint [dir] q w Hdir) as H1.
    destruct (mkdir [dir] w) as [[[]|e] w1]; cbn [snd] in *.
    + rewrite mkdir_footprint by done. exact H1.
    + destruct e as [| |[]]; try exact H1.
      rewrite mkdir_footprint by done. exact H1.
Qed.

Lemma ensure_dirs_keeps w q :
  q ≠ [".."] → q ≠ [".."; "quartus"] → q ≠ [".."; "sim"] →
  fs (ensure_dirs w).2 !! q = fs w !! q.
Proof.
  intros Hpar Hq Hs. rewrite ensure_dirs_unfold.
  assert (∃ r1 w1, (if exists_at (fs w) [".."; "quartus"] then (Ok tt, w)
             else makedirs_rev ["quartus"; ".."] w) = (r1, w1)
           ∧ fs w1 !! q = fs w !! q) as (r1 & w1 & -> & H1).
  { destruct (exists_at (fs w) [".."; "quartus"]).
    - by exists (Ok tt), w.
    - pose proof (makedirs_two_levels_keeps "quartus" ".." q w Hpar Hq) as H.
      destruct (makedirs_rev ["quartus"; ".."] w) as [r1 w1]. eauto. }
  destruct r1 as [[]|e]; [|exact H1].
  destruct (exists_at (fs w1) [".."; "sim"]); [exact H1 |].
  rewrite makedirs_two_levels_keeps by done. exact H1.
Qed.

(** X3: [ensure_dirs] touches three paths at most, the two directories
    and their parent: whatever sits at any other path, the sources and
    the working directory among them, is looked up afterwards as before,
    whether the routine returns or raises. *)
Theorem ensure_dirs_touches_nothing_else (w : world) (q : list string) :
  q ≠ parent (components SIM_DIR) →
  q ≠ components "../quartus" →
  q ≠ components SIM_DIR →
  fs (ensure_dirs w).2 !! q = fs w !! q.
Proof.
  rewrite components_quartus, components_SIM_DIR. apply ensure_dirs_keeps.
Qed.

Lemma ensure_dirs_touches_nothing_else_witness :
  fs (ensure_dirs Examples.fresh).2 !! [".."; "src"; "d1_design.v"] =
    fs Examples.fresh !! [".."; "src"; "d1_design.v"]
  ∧ fs (ensure_dirs Examples.fresh).2 !! [] = fs Examples.fresh !! [].
Proof.
  split.
  - by apply (ensure_dirs_touches_nothing_else
                Examples.fresh [".."; "src"; "d1_design.v"]).
  - by apply (ensure_dirs_touches_nothing_else Examples.fresh []).
Defined.

(** ** More on running tools *)

Section MoreTools.

Variable spawn : list string → filesystem → os_error + Z * filesystem.

Lemma runs_tools_refl w : runs_tools spawn w w.
Proof. exists []. cbn. by rewrite !app_nil_r. Qed.

Lemma runs_tools_trans w1 w2 w3 :
  runs_tools spawn w1 w2 → runs_tools spawn w2 w3 → runs_tools spawn w1 w3.
Proof.
  intros (l1 & Hc1 & Ho1 & Hf1) (l2 & Hc2 & Ho2 & Hf2). exists (l1 ++ l2).
  rewrite Hc2, Hc1, Ho2, Ho1, Hf2, Hf1, map_app, !app_assoc.
  unfold replay. by rewrite foldl_app.
Qed.

Lemma runs_tools_bind {A B} (m : M A) (k : A → M B) :
  (∀ w, runs_tools spawn w (m w).2) →
  (∀ a w, runs_tools spawn w (k a w).2) →
  ∀ w, runs_tools spawn w (bind m k w).2.
Proof.
  intros Hm Hk w. unfold bind. specialize (Hm w).
  destruct (m w) as [[a|e] w1]; cbn [snd] in *; [|done].
  eapply runs_tools_trans; [exact Hm | apply Hk].
Qed.

Lemma run_command_runs_tools cmd w :
  runs_tools spawn w (run_command spawn cmd w).2.
Proof.
  exists [match spawn cmd (fs w) with
          | inl _ => Invocation cmd None
          | inr (rc, _) => Invocation cmd (Some rc)
          end].
  rewrite run_command_unfold. unfold replay, tool_effect, echo. cbn.
  destruct (spawn cmd (fs w)) as [e|[rc f']] eqn:Hs; cbn; by rewrite Hs.
Qed.

End MoreTools.

(** ** More on the simulations *)

Section MoreSimulation.

Variable spawn : list string → filesystem → os_error + Z * filesystem.

Lemma then_run_runs_tools final w :
  runs_tools spawn (ensure_dirs w).2
    ((compile_steps spawn ;;; run_command spawn final) w).2.
Proof.
  unfold compile_steps. rewrite bind_assoc. unfold bind at 1.
  destruct (ensure_dirs w) as [[[]|e] w1]; cbn [snd];
    [|apply runs_tools_refl].
  apply runs_tools_bind; [|intros; apply run_command_runs_tools].
  apply runs_tools_bind; intros; apply run_command_runs_tools.
Qed.

Lemma then_run_log final w :
  stdout ((compile_steps spawn ;;; run_command spawn final) w).2 =
    stdout w ++
    map echo (issued (compile_steps spawn ;;; run_command spawn final) w)
  ∧ fs ((compile_steps spawn ;;; run_command spawn final) w).2 =
      replay spawn
        (issued (compile_steps spawn ;;; run_command spawn final) w)
        (fs (ensure_dirs w).2).
Proof.
  destruct (then_run_runs_tools final w) as (l & Hc & Ho & Hf).
  destruct (ensure_dirs_only_adds w) as (Hout & Hcalls & _).
  rewrite Hcalls in Hc. rewrite Hout in Ho.
  by rewrite (issued_app _ _ _ Hc).
Qed.

Lemma run_trace_facts final r l :
  run_trace final r l →
  (length l ≤ 3)%nat
  ∧ Forall (λ i, inv_status i = Some 0) (removelast l)
  ∧ map inv_argv l `prefix_of` [vlib_cmd; vlog_cmd; final]
  ∧ (r = Ok tt ↔
     l = [Invocation vlib_cmd (Some 0); Invocation vlog_cmd (Some 0);
          Invocation final (Some 0)]).
Proof.
  intros Htrace.
  inversion Htrace as [e l0 Hstop|s e Hfail|]; subst.
  - inversion Hstop as [|s e0 Hfail|s e0 Hfail|]; subst; cbn.
    + repeat split; [lia | constructor | apply prefix_nil | done | done].
    + repeat split; [lia | constructor | by eexists | done | done].
    + repeat split; [lia | by repeat constructor | by eexists | done | done].
  - cbn. repeat split; [lia | by repeat constructor | done | done |].
    intros [= ->]. inversion Hfail; subst; done.
  - cbn. repeat split; [lia | by repeat constructor | done].
Qed.

(** The simulations raise nothing but the errors of the system calls
    and tools. *)
Lemma then_run_errors final w e w' :
  (compile_steps spawn ;;; run_command spawn final) w = (Raise e, w') →
  is_error e.
Proof.
  assert (∀ cmd w0 e0 w0', run_command spawn cmd w0 = (Raise e0, w0') →
            is_error e0) as Hrc.
  { intros cmd w0 e0 w0' H.
    apply run_command_raise in H as [(rc & _ & -> & _)|(oe & -> & _)]; done. }
  unfold bind. rewrite compile_steps_unfold.
  destruct (ensure_dirs w) as [[[]|e0] w1] eqn:Hprep.
  2:{ intros [= <- <-].
      by destruct (ensure_dirs_raises_os_error _ _ _ Hprep) as [oe ->]. }
  destruct (run_command spawn vlib_cmd _) as [[[]|e1] w2] eqn:H1;
    [|intros [= <- <-]; by eapply Hrc].
  destruct (run_command spawn vlog_cmd w2) as [[[]|e2] w3] eqn:H2;
    [|intros [= <- <-]; by eapply Hrc].
  apply Hrc.
Qed.

Lemma exit_status_zero_iff (r : result unit) :
  (∀ e, r = Raise e → is_error e) → exit_status r = 0 ↔ r = Ok tt.
Proof.
  intros Herr. destruct r as [[]|e]; [done |].
  specialize (Herr e eq_refl). destruct e; done.
Qed.

Lemma main_simulate_gui script rest w :
  main spawn (script :: "simulate_gui" :: rest) w = simulate_gui spawn w.
Proof. by rewrite main_dispatch. Qed.

Lemma main_view_wave script rest w :
  main spawn (script :: "view_wave" :: rest) w = view_wave spawn w.
Proof. by rewrite main_dispatch. Qed.

Lemma main_clean script rest w :
  main spawn (script :: "clean" :: rest) w = clean w.
Proof. by rewrite main_dispatch. Qed.

End MoreSimulation.

Lemma pair_of_fst {A B} (p : A * B) (a : A) :
  p.1 = a → ∃ b, p = (a, b).
Proof. destruct p as [a' b]. intros <-. by exists b. Qed.

Lemma run_script_status
    (spawn : list string → filesystem → os_error + Z * filesystem) argv w :
  (run_script spawn argv w).1 = exit_status (main spawn argv w).1.
Proof. unfold run_script. by destruct (main spawn argv w). Qed.

(** X4: every tool the actions start is announced.  In every run of
    [simulate], [simulate_gui] and [view_wave] the lines added to the
    standard output are the [Running:] lines of the invocations issued,
    one per invocation and in the same order; nothing else is printed. *)
Theorem actions_announce_every_invocation
    (spawn : list string → filesystem → os_error + Z * filesystem)
    (w : world) :
  stdout (simulate spawn w).2 =
    stdout w ++ map echo (issued (simulate spawn) w)
  ∧ stdout (simulate_gui spawn w).2 =
      stdout w ++ map echo (issued (simulate_gui spawn) w)
  ∧ stdout (view_wave spawn w).2 =
      stdout w ++ map echo (issued (view_wave spawn) w).
Proof.
  split; [|split].
  - unfold issued. rewrite simulate_factors. apply then_run_log.
  - unfold issued. rewrite simulate_gui_factors. apply then_run_log.
  - destruct (run_command_runs_tools spawn
                ["vsim"; "-view"; os_path_join SIM_DIR "waveform.wlf"] w)
      as (l & Hc & Ho & _).
    unfold view_wave. by rewrite (issued_app _ _ _ Hc).
Qed.

(** X5: apart from preparing the directories the simulations never touch
    the filesystem themselves, also when they fail: in every run the
    final filesystem is what the tools issued made, one after the other,
    of the filesystem [ensure_dirs] left (for [view_wave]: of the initial
    one).  Nothing is cleaned up after a failure. *)
Theorem filesystem_is_what_the_tools_leave
    (spawn : list string → filesystem → os_error + Z * filesystem)
    (w : world) :
  fs (simulate spawn w).2 =
    replay spawn (issued (simulate spawn) w) (fs (ensure_dirs w).2)
  ∧ fs (simulate_gui spawn w).2 =
      replay spawn (issued (simulate_gui spawn) w) (fs (ensure_dirs w).2)
  ∧ fs (view_wave spawn w).2 =
      replay spawn (issued (view_wave spawn) w) (fs w).
Proof.
  split; [|split].
  - unfold issued. rewrite simulate_factors. apply then_run_log.
  - unfold issued. rewrite simulate_gui_factors. apply then_run_log.
  - destruct (run_command_runs_tools spawn
                ["vsim"; "-view"; os_path_join SIM_DIR "waveform.wlf"] w)
      as (l & Hc & _ & Hf).
    unfold view_wave. by rewrite (issued_app _ _ _ Hc).
Qed.

(** X6: the simulations stop at the first tool that does not exit with
    status zero.  In every run of [simulate] and [simulate_gui] at most
    three invocations are issued, their commands are an initial part of
    [vlib], [vlog], [vsim] in that order, and every invocation but the
    last one issued exited with status zero. *)
Theorem simulations_stop_at_first_failure
    (spawn : list string → filesystem → os_error + Z * filesystem)
    (w : world) :
  ((length (issued (simulate spawn) w) ≤ 3)%nat
   ∧ Forall (λ i, inv_status i = Some 0)
       (removelast (issued (simulate spawn) w))
   ∧ map inv_argv (issued (simulate spawn) w) `prefix_of`
       [vlib_cmd; vlog_cmd;
        vsim_batch_cmd (os_path_join SIM_DIR "simulation.log")
                       (os_path_join SIM_DIR "waveform.wlf")])
  ∧ ((length (issued (simulate_gui spawn) w) ≤ 3)%nat
     ∧ Forall (λ i, inv_status i = Some 0)
         (removelast (issued (simulate_gui spawn) w))
     ∧ map inv_argv (issued (simulate_gui spawn) w) `prefix_of`
         [vlib_cmd; vlog_cmd; vsim_gui_cmd]).
Proof.
  split.
  - destruct (then_run_trace spawn
                (vsim_batch_cmd (os_path_join SIM_DIR "simulation.log")
                                (os_path_join SIM_DIR "waveform.wlf")) w)
      as (l & Hc & Htrace & _).
    unfold issued. rewrite simulate_factors.
    fold (issued (compile_steps spawn ;;; run_command spawn
            (vsim_batch_cmd (os_path_join SIM_DIR "simulation.log")
                            (os_path_join SIM_DIR "waveform.wlf"))) w).
    rewrite (issued_app _ _ _ Hc).
    destruct (run_trace_facts _ _ _ Htrace) as (? & ? & ? & _). done.
  - destruct (then_run_trace spawn vsim_gui_cmd w) as (l & Hc & Htrace & _).
    unfold issued. rewrite simulate_gui_factors.
    fold (issued (compile_steps spawn ;;; run_command spawn vsim_gui_cmd) w).
    rewrite (issued_app _ _ _ Hc).
    destruct (run_trace_facts _ _ _ Htrace) as (? & ? & ? & _). done.
Qed.

(** X7: the dispatcher exits with status zero on [simulate] (on
    [simulate_gui]) exactly when three invocations were issued and all
    three, the simulator run included, exited with status zero. *)
Theorem simulation_succeeds_iff_all_tools_succeed
    (spawn : list string → filesystem → os_error + Z * filesystem)
    (script : string) (rest : list string) (w : world) :
  ((run_script spawn (script :: "simulate" :: rest) w).1 = 0 ↔
   issued (simulate spawn) w =
     [Invocation vlib_cmd (Some 0); Invocation vlog_cmd (Some 0);
      Invocation
        (vsim_batch_cmd (os_path_join SIM_DIR "simulation.log")
                        (os_path_join SIM_DIR "waveform.wlf")) (Some 0)])
  ∧ ((run_script spawn (script :: "simulate_gui" :: rest) w).1 = 0 ↔
     issued (simulate_gui spawn) w =
       [Invocation vlib_cmd (Some 0); Invocation vlog_cmd (Some 0);
        Invocation vsim_gui_cmd (Some 0)]).
Proof.
  split.
  - rewrite run_script_status, main_simulate.
    destruct (then_run_trace spawn
                (vsim_batch_cmd (os_path_join SIM_DIR "simulation.log")
                                (os_path_join SIM_DIR "waveform.wlf")) w)
      as (l & Hc & Htrace & _).
    unfold issued. rewrite simulate_factors.
    fold (issued (compile_steps spawn ;;; run_command spawn
            (vsim_batch_cmd (os_path_join SIM_DIR "simulation.log")
                            (os_path_join SIM_DIR "waveform.wlf"))) w).
    rewrite (issued_app _ _ _ Hc).
    destruct (run_trace_facts _ _ _ Htrace) as (_ & _ & _ & <-).
    apply exit_status_zero_iff. intros e He.
    destruct ((compile_steps spawn ;;; run_command spawn
                 (vsim_batch_cmd (os_path_join SIM_DIR "simulation.log")
                                 (os_path_join SIM_DIR "waveform.wlf"))) w)
      as [r w'] eqn:Hrun.
    cbn [fst] in He. subst r. by eapply then_run_errors.
  - rewrite run_script_status, main_simulate_gui.
    destruct (then_run_trace spawn vsim_gui_cmd w) as (l & Hc & Htrace & _).
    unfold issued. rewrite simulate_gui_factors.
    fold (issued (compile_steps spawn ;;; run_command spawn vsim_gui_cmd) w).
    rewrite (issued_app _ _ _ Hc).
    destruct (run_trace_facts _ _ _ Htrace) as (_ & _ & _ & <-).
    apply exit_status_zero_iff. intros e He.
    destruct ((compile_steps spawn ;;; run_command spawn vsim_gui_cmd) w)
      as [r w'] eqn:Hrun.
    cbn [fst] in He. subst r. by eapply then_run_errors.
Qed.

(** X8: when the directory preparation fails, [simulate] and
    [simulate_gui] fail with the same error before any tool is started
    and before anything is printed: the world is the one [ensure_dirs]
    left, and the process exits with status one. *)
Theorem failed_preparation_starts_no_tool
    (spawn : list string → filesystem → os_error + Z * filesystem)
    (script : string) (rest : list string) (w w1 : world) (e : exn) :
  ensure_dirs w = (Raise e, w1) →
  main spawn (script :: "simulate" :: rest) w = (Raise e, w1)
  ∧ main spawn (script :: "simulate_gui" :: rest) w = (Raise e, w1)
  ∧ run_script spawn (script :: "simulate" :: rest) w = (1, w1)
  ∧ run_script spawn (script :: "simulate_gui" :: rest) w = (1, w1)
  ∧ calls w1 = calls w
  ∧ stdout w1 = stdout w.
Proof.
  intros Hprep.
  destruct (ensure_dirs_raises_os_error _ _ _ Hprep) as [oe ->].
  destruct (ensure_dirs_only_adds w) as (Hout & Hcalls & _).
  rewrite Hprep in Hout, Hcalls. cbn [snd] in Hout, Hcalls.
  assert (simulate spawn w = (Raise (OSError oe), w1)) as Hs
    by (unfold simulate, bind; by rewrite Hprep).
  assert (simulate_gui spawn w = (Raise (OSError oe), w1)) as Hg
    by (unfold simulate_gui, bind; by rewrite Hprep).
  unfold run_script. rewrite main_simulate, main_simulate_gui, Hs, Hg. done.
Qed.

Lemma failed_preparation_starts_no_tool_witness :
  run_script Examples.tools_succeed ["sim.py"; "simulate"] Examples.readonly
    = (1, Examples.readonly)
  ∧ run_script Examples.tools_succeed ["sim.py"; "simulate_gui"]
      Examples.dangling
    = (1, World (<[ [".."; "quartus"] := Dir true ]> Examples.dangling_fs)
            [] []).
Proof.
  split.
  - destruct (failed_preparation_starts_no_tool Examples.tools_succeed
                "sim.py" [] Examples.readonly Examples.readonly
                (OSError PermissionError)) as (_ & _ & Hs & _).
    + vm_compute. reflexivity.
    + exact Hs.
  - destruct (failed_preparation_starts_no_tool Examples.tools_succeed
                "sim.py" [] Examples.dangling
                (World (<[ [".."; "quartus"] := Dir true ]>
                          Examples.dangling_fs) [] [])
                (OSError FileExistsError)) as (_ & _ & _ & Hg & _).
    + vm_compute. reflexivity.
    + exact Hg.
Defined.

(** X9: when the first tool cannot even be started (the simulator is not
    installed), [simulate] and [simulate_gui] have prepared the
    directories and announced the command by then; they fail with the
    operating-system error, the one attempt is on record, the directories
    stay, and the process exits with status one. *)
Theorem missing_tool_fails_after_preparation
    (spawn : list string → filesystem → os_error + Z * filesystem)
    (script : string) (rest : list string) (w w1 : world) (oe : os_error) :
  ensure_dirs w = (Ok tt, w1) →
  spawn ["vlib"; SIM_DIR] (fs w1) = inl oe →
  main spawn (script :: "simulate" :: rest) w =
    (Raise (OSError oe),
     World (fs w1) (stdout w ++ ["Running: vlib ../sim"])
       (calls w ++ [Invocation ["vlib"; SIM_DIR] None]))
  ∧ main spawn (script :: "simulate_gui" :: rest) w =
      main spawn (script :: "simulate" :: rest) w
  ∧ (run_script spawn (script :: "simulate" :: rest) w).1 = 1
  ∧ exists_at (fs w1) (components SIM_DIR) = true.
Proof.
  intros Hprep Hvlib.
  destruct (ensure_dirs_only_adds w) as (Hout & Hcalls & _).
  rewrite Hprep in Hout, Hcalls. cbn [snd] in Hout, Hcalls.
  assert (run_command spawn ["vlib"; SIM_DIR] w1 =
    (Raise (OSError oe),
     World (fs w1) (stdout w ++ ["Running: vlib ../sim"])
       (calls w ++ [Invocation ["vlib"; SIM_DIR] None]))) as Hrun.
  { rewrite run_command_unfold. cbn zeta. rewrite Hvlib, Hout, Hcalls.
    reflexivity. }
  assert (simulate spawn w =
    (Raise (OSError oe),
     World (fs w1) (stdout w ++ ["Running: vlib ../sim"])
       (calls w ++ [Invocation ["vlib"; SIM_DIR] None]))) as Hs
    by (unfold simulate, bind; by rewrite Hprep, Hrun).
  assert (simulate_gui spawn w = simulate spawn w) as Hg
    by (rewrite Hs; unfold simulate_gui, bind; by rewrite Hprep, Hrun).
  rewrite run_script_status, main_simulate, main_simulate_gui, Hg, Hs.
  repeat split. by apply ensure_dirs_ok in Hprep as (_ & ? & _).
Qed.

Lemma missing_tool_fails_after_preparation_witness :
  main Examples.tools_missing ["sim.py"; "simulate"] Examples.fresh =
    (Raise (OSError FileNotFoundError),
     World (fs (ensure_dirs Examples.fresh).2) ["Running: vlib ../sim"]
       [Invocation ["vlib"; SIM_DIR] None])
  ∧ (run_script Examples.tools_missing ["sim.py"; "simulate"]
       Examples.fresh).1 = 1.
Proof.
  destruct (missing_tool_fails_after_preparation Examples.tools_missing
              "sim.py" [] Examples.fresh (ensure_dirs Examples.fresh).2
              FileNotFoundError) as (Hs & _ & Hstatus & _).
  - vm_compute. reflexivity.
  - reflexivity.
  - split; [exact Hs | exact Hstatus].
Defined.

(** X10: [view_wave] does not look for the waveform file; what it does
    depends on the viewer alone.  The dispatcher exits with status zero on
    [view_wave] exactly when the viewer could be started and exited with
    status zero, and with status one otherwise. *)
Theorem view_wave_status_is_the_viewers
    (spawn : list string → filesystem → os_error + Z * filesystem)
    (script : string) (rest : list string) (w : world) :
  ((run_script spawn (script :: "view_wave" :: rest) w).1 = 0 ↔
   ∃ f', spawn ["vsim"; "-view"; os_path_join SIM_DIR "waveform.wlf"] (fs w)
         = inr (0, f'))
  ∧ ((run_script spawn (script :: "view_wave" :: rest) w).1 = 0
     ∨ (run_script spawn (script :: "view_wave" :: rest) w).1 = 1).
Proof.
  rewrite run_script_status, main_view_wave. unfold view_wave.
  rewrite run_command_unfold. cbn zeta.
  destruct (spawn _ (fs w)) as [oe|[rc f']]; cbn.
  - split; [|by right]. split; [done | by intros [? ?]].
  - destruct (Z.eqb_spec rc 0) as [->|Hrc]; cbn.
    + split; [|by left]. split; eauto.
    + split; [|by right]. split; [done |]. intros [? [= ? ?]]. done.
Qed.

(** ** More on the dispatcher *)

(** X11: the dispatcher reads the first argument only: neither the
    script name nor any further argument has an influence on what it
    does. *)
Theorem dispatcher_reads_first_argument_only
    (spawn : list string → filesystem → os_error + Z * filesystem)
    (script script' cmd : string) (rest rest' : list string) (w : world) :
  main spawn (script :: cmd :: rest) w = main spawn (script' :: cmd :: rest') w.
Proof. by rewrite !main_dispatch. Qed.

(** X12: every token other than the five commands, the empty string and
    a command in another letter case among them, makes the dispatcher
    print [Unknown command:] with the token and then the usage text; no
    tool is started, the filesystem is as it was, and the script runs off
    its end, which is exit status zero. *)
Theorem unknown_token_prints_message_and_usage
    (spawn : list string → filesystem → os_error + Z * filesystem)
    (script cmd : string) (rest : list string) (w : world) :
  cmd ∉ known_commands →
  run_script spawn (script :: cmd :: rest) w =
    (0, World (fs w) (stdout w ++ ["Unknown command: " +:+ cmd; help_text])
          (calls w)).
Proof.
  intros Hcmd. unfold run_script. rewrite main_dispatch.
  assert (∀ k, k ∈ known_commands → String.eqb cmd k = false) as Hne.
  { intros k Hk. apply String.eqb_neq. intros ->. by apply Hcmd. }
  rewrite !Hne
    by (unfold known_commands; rewrite !elem_of_cons; tauto).
  unfold bind, print_help, print. cbn. by rewrite <- app_assoc.
Qed.

Lemma unknown_token_prints_message_and_usage_witness :
  run_script Examples.tools_succeed ["sim.py"; "Simulate"; "now"]
    Examples.built =
    (0, World Examples.built_fs ["Unknown command: Simulate"; help_text] [])
  ∧ run_script Examples.tools_succeed ["sim.py"; ""] Examples.built =
    (0, World Examples.built_fs ["Unknown command: "; help_text] []).
Proof.
  split.
  - apply (unknown_token_prints_message_and_usage Examples.tools_succeed
             "sim.py" "Simulate" ["now"] Examples.built).
    unfold known_commands. rewrite !elem_of_cons, elem_of_nil.
    intros H. repeat destruct H as [H|H]; (discriminate || contradiction).
  - apply (unknown_token_prints_message_and_usage Examples.tools_succeed
             "sim.py" "" [] Examples.built).
    unfold known_commands. rewrite !elem_of_cons, elem_of_nil.
    intros H. repeat destruct H as [H|H]; (discriminate || contradiction).
Defined.

(** X13: the exit status of the script is zero or one, whatever the
    arguments, the filesystem and the tools: zero exactly when the main
    block returns normally, one when it stops with [sys.exit] or with an
    error; the exit status of a failed tool is not passed on. *)
Theorem exit_status_is_zero_or_one
    (spawn : list string → filesystem → os_error + Z * filesystem)
    (argv : list string) (w : world) :
  ((run_script spawn argv w).1 = 0 ↔ (main spawn argv w).1 = Ok tt)
  ∧ ((run_script spawn argv w).1 = 0 ∨ (run_script spawn argv w).1 = 1).
Proof.
  rewrite run_script_status.
  assert ((main spawn argv w).1 = Raise (SystemExit 1)
          ∨ ∀ e, (main spawn argv w).1 = Raise e → is_error e) as Hcases.
  { destruct argv as [|script [|cmd rest]];
      [left; by rewrite main_short by (cbn; lia) ..|].
    right. rewrite main_dispatch.
    destruct (String.eqb cmd "simulate").
    { rewrite simulate_factors. intros e He.
      apply pair_of_fst in He as [w' He]. by eapply then_run_errors. }
    destruct (String.eqb cmd "simulate_gui").
    { rewrite simulate_gui_factors. intros e He.
      apply pair_of_fst in He as [w' He]. by eapply then_run_errors. }
    destruct (String.eqb cmd "view_wave").
    { intros e He. unfold view_wave in He.
      apply pair_of_fst in He as [w' He].
      apply run_command_raise in He as [(rc & _ & -> & _)|(oe & -> & _)];
        done. }
    destruct (String.eqb cmd "clean").
    { rewrite clean_unfold. discriminate. }
    destruct (String.eqb cmd "help"); discriminate. }
  destruct Hcases as [->|Herr]; [cbn; split; [done | by right] |].
  destruct (main spawn argv w).1 as [[]|e] eqn:Hr; [cbn; split; [done | by left] |].
  specialize (Herr e eq_refl). destruct e; cbn; try done; split; (done || by right).
Qed.

(** ** More on cleaning *)

Lemma rmtree_fs_directory (f : gmap (list string) node) p d :
  f !! p = Some (Dir d) →
  rmtree_fs f p =
    filter (λ kv, ¬ (p `prefix_of` kv.1 ∧ subtree_removable f kv.1 = true)) f.
Proof. intros Hp. unfold rmtree_fs. by rewrite Hp. Qed.

(** A recursive delete only removes. *)
Lemma rmtree_fs_lookup_Some (f : gmap (list string) node) p q n :
  rmtree_fs f p !! q = Some n → f !! q = Some n.
Proof.
  unfold rmtree_fs. destruct (f !! p) as [[|d|]|]; try done.
  apply map_lookup_filter_Some_1_1.
Qed.

Lemma rmtree_fs_lookup_cases (f : gmap (list string) node) p q :
  rmtree_fs f p !! q = f !! q
  ∨ (p `prefix_of` q ∧ rmtree_fs f p !! q = None).
Proof.
  destruct (decide (p `prefix_of` q)) as [Hpre|Hout];
    [|left; by apply rmtree_fs_outside].
  destruct (rmtree_fs f p !! q) as [n|] eqn:Hq; [|by right].
  left. symmetry. by eapply rmtree_fs_lookup_Some.
Qed.

Lemma removable_mono (f g : gmap (list string) node) r :
  (∀ q n, g !! q = Some n → f !! q = Some n) →
  removable g r = true → removable f r = true.
Proof.
  intros Hsub. unfold removable. destruct r as [|c r]; [done |].
  destruct (g !! parent (c :: r)) as [[|[]|]|] eqn:Hg; try done.
  by rewrite (Hsub _ _ Hg).
Qed.

Lemma subtree_removable_false (f : gmap (list string) node) q :
  subtree_removable f q = false →
  ∃ r n, f !! r = Some n ∧ q `prefix_of` r ∧ removable f r = false.
Proof.
  unfold subtree_removable. rewrite bool_decide_eq_false.
  intros (r & n & Hr & Hnot)%map_not_Forall; [|apply _].
  exists r, n. split; [done |].
  destruct (decide (q `prefix_of` r)) as [Hpre|Hout]; [|tauto].
  split; [done |]. destruct (removable f r); [tauto | done].
Qed.

Lemma subtree_removable_self (f : gmap (list string) node) r n :
  f !! r = Some n → subtree_removable f r = true → removable f r = true.
Proof.
  unfold subtree_removable. rewrite bool_decide_eq_true.
  intros Hr Hall. by apply (Hall r n Hr).
Qed.

(** What a recursive delete could not remove, a second one cannot
    either. *)
Lemma rmtree_fs_idempotent (f : gmap (list string) node) p :
  rmtree_fs (rmtree_fs f p) p = rmtree_fs f p.
Proof.
  destruct (rmtree_fs f p !! p) as [[|d|]|] eqn:Hg;
    try (apply rmtree_fs_no_directory; congruence).
  rewrite (rmtree_fs_directory _ _ _ Hg).
  apply map_filter_id. intros i x Hi [Hpi Hsr]. cbn in Hpi, Hsr.
  pose proof (rmtree_fs_lookup_Some _ _ _ _ Hg) as Hp.
  pose proof Hi as Hi'. rewrite (rmtree_fs_directory _ _ _ Hp) in Hi'.
  apply map_lookup_filter_Some in Hi' as [Hfi Hkeep]. cbn in Hkeep.
  destruct (subtree_removable f i) eqn:Hsrf; [by apply Hkeep |].
  apply subtree_removable_false in Hsrf as (r & n & Hr & Hir & Hrem).
  assert (rmtree_fs f p !! r = Some n) as Hgr.
  { rewrite (rmtree_fs_directory _ _ _ Hp).
    apply map_lookup_filter_Some. split; [done |]. cbn. intros [_ Hsrr].
    rewrite (subtree_removable_self _ _ _ Hr Hsrr) in Hrem. discriminate. }
  unfold subtree_removable in Hsr. rewrite bool_decide_eq_true in Hsr.
  specialize (Hsr r n Hgr Hir).
  apply (removable_mono f) in Hsr; [congruence |].
  intros q m. apply rmtree_fs_lookup_Some.
Qed.

(** X14: [clean] only removes, and only below the simulation directory.
    In every world each path holds after [clean] what it held before, or
    it lies at or below the simulation directory and holds nothing; no
    tool is started; and when what sits at the simulation directory is
    no directory (nothing, or a regular file) the filesystem is left as
    it was. *)
Theorem clean_only_removes_below_sim_dir (w : world) (q : list string) :
  (fs (clean w).2 !! q = fs w !! q
   ∨ (components SIM_DIR `prefix_of` q ∧ fs (clean w).2 !! q = None))
  ∧ calls (clean w).2 = calls w
  ∧ ((∀ d, fs w !! components SIM_DIR ≠ Some (Dir d)) →
     fs (clean w).2 = fs w).
Proof.
  rewrite clean_unfold. cbn [snd fs calls].
  split; [apply rmtree_fs_lookup_cases |]. split; [done |].
  apply rmtree_fs_no_directory.
Qed.

Lemma clean_only_removes_below_sim_dir_witness :
  fs (clean (World (<[ [".."; "sim"] := File ]> Examples.fresh_fs) [] [])).2
    = <[ [".."; "sim"] := File ]> Examples.fresh_fs
  ∧ (fs (clean Examples.locked).2 !! [".."; "quartus"]
       = fs Examples.locked !! [".."; "quartus"]
     ∨ (components SIM_DIR `prefix_of` [".."; "quartus"]
        ∧ fs (clean Examples.locked).2 !! [".."; "quartus"] = None)).
Proof.
  split.
  - destruct (clean_only_removes_below_sim_dir
                (World (<[ [".."; "sim"] := File ]> Examples.fresh_fs) [] [])
                []) as (_ & _ & Hfile).
    apply Hfile. intros d. vm_compute. discriminate.
  - apply (clean_only_removes_below_sim_dir Examples.locked
             [".."; "quartus"]).
Defined.

(** X15: [clean] is idempotent on the filesystem: a second [clean] right
    after the first removes nothing more, also when the first one could
    not remove everything; it prints its confirmation a second time. *)
Theorem clean_twice_is_clean_once (w : world) :
  fs (clean (clean w).2).2 = fs (clean w).2
  ∧ stdout (clean (clean w).2).2 =
      stdout w ++ ["Cleaned simulation directory.";
                   "Cleaned simulation directory."].
Proof.
  rewrite !clean_unfold. cbn [snd fs stdout]. split.
  - apply rmtree_fs_idempotent.
  - by rewrite <- app_assoc.
Qed.

(** ** Preparing and cleaning together *)

Lemma strictly_below_sim_is_new q :
  [".."; "sim"] `prefix_of` q → q ≠ [".."; "sim"] →
  q ≠ [".."] ∧ q ≠ [".."; "quartus"].
Proof.
  intros [k ->] Hne. split; intros Heq; destruct k; discriminate Heq.
Qed.

(** X16: [clean] undoes the simulation half of [ensure_dirs].  When
    [ensure_dirs] has returned from a world that held nothing at or below
    the simulation directory, a [clean] right after it succeeds and
    leaves nothing at or below the simulation directory again; every path
    other than [../quartus] and the parent directory holds what it held
    before the two calls, and [../quartus], which [clean] never removes,
    exists. *)
Theorem clean_undoes_ensure_dirs_except_quartus (w w1 : world) :
  ensure_dirs w = (Ok tt, w1) →
  (∀ q, components SIM_DIR `prefix_of` q → fs w !! q = None) →
  ∃ w2,
    clean w1 = (Ok tt, w2)
    ∧ (∀ q, components SIM_DIR `prefix_of` q → fs w2 !! q = None)
    ∧ (∀ q, q ≠ components "../quartus" → q ≠ parent (components SIM_DIR) →
         fs w2 !! q = fs w !! q)
    ∧ exists_at (fs w2) (components "../quartus") = true.
Proof.
  intros Hprep Hempty.
  pose proof (ensure_dirs_keeps w) as Hkeeps. rewrite Hprep in Hkeeps.
  cbn [snd] in Hkeeps.
  destruct (ensure_dirs_ok w w1 Hprep) as (Hq & Hs & Hadds & Hnew).
  revert Hempty Hq Hs Hnew.
  rewrite components_quartus, components_SIM_DIR. cbn [parent removelast].
  intros Hempty Hq Hs Hnew.
  destruct (Hnew [".."; "sim"]) as [Hsim Hpar].
  { apply elem_of_cons. right. apply elem_of_cons. by left. }
  { by apply Hempty. }
  cbn [parent removelast] in Hpar.
  assert (∀ q, [".."; "sim"] `prefix_of` q → q ≠ [".."; "sim"] →
            fs w1 !! q = None) as Hbelow.
  { intros q Hpre Hne.
    destruct (strictly_below_sim_is_new q Hpre Hne) as [H1 H2].
    rewrite Hkeeps by done. by apply Hempty. }
  assert (rmtree_error (fs w1) [".."; "sim"] = None) as Hnoerr.
  { apply rmtree_error_None. split; [eauto |].
    unfold subtree_removable. apply bool_decide_eq_true.
    intros r n Hr Hpre. destruct (decide (r = [".."; "sim"])) as [->|Hne].
    - unfold removable. cbn [parent removelast]. by rewrite Hpar.
    - rewrite Hbelow in Hr by done. discriminate. }
  eexists. split; [apply clean_unfold |].
  cbn [fs]. rewrite components_SIM_DIR. split; [|split].
  - intros q Hpre. by apply rmtree_fs_removes.
  - intros q Hquartus Hparent.
    destruct (decide ([".."; "sim"] `prefix_of` q)) as [Hpre|Hout].
    + rewrite rmtree_fs_removes by done. symmetry. by apply Hempty.
    + rewrite rmtree_fs_outside by done.
      apply Hkeeps; [done | done |]. intros ->. by apply Hout.
  - unfold exists_at. rewrite rmtree_fs_outside; [exact Hq |].
    intros [k Hk]. discriminate Hk.
Qed.

Lemma clean_undoes_ensure_dirs_except_quartus_witness :
  ∃ w2,
    clean (ensure_dirs Examples.fresh).2 = (Ok tt, w2)
    ∧ (∀ q, components SIM_DIR `prefix_of` q → fs w2 !! q = None)
    ∧ (∀ q, q ≠ components "../quartus" → q ≠ parent (components SIM_DIR) →
         fs w2 !! q = fs Examples.fresh !! q)
    ∧ exists_at (fs w2) (components "../quartus") = true.
Proof.
  apply (clean_undoes_ensure_dirs_except_quartus Examples.fresh).
  - vm_compute. reflexivity.
  - intros q [k ->]. unfold Examples.fresh, Examples.fresh_fs. cbn [fs].
    rewrite components_SIM_DIR. cbn [app].
    rewrite lookup_insert_ne by discriminate.
    by rewrite lookup_singleton_ne.
Defined.

(** X17: when [ensure_dirs] returns after a [clean] that met no error,
    it has put back an empty simulation directory: the simulation
    directory is a writable directory with nothing below it, and every
    path outside it other than [../quartus] holds what it held before the
    [clean]. *)
Theorem ensure_dirs_after_clean_gives_empty_sim_dir (w w2 : world) :
  rmtree_error (fs w) (components SIM_DIR) = None →
  ensure_dirs (clean w).2 = (Ok tt, w2) →
  fs w2 !! components SIM_DIR = Some (Dir true)
  ∧ (∀ q, components SIM_DIR `prefix_of` q → q ≠ components SIM_DIR →
       fs w2 !! q = None)
  ∧ (∀ q, ¬ components SIM_DIR `prefix_of` q →
       q ≠ components "../quartus" → fs w2 !! q = fs w !! q).
Proof.
  rewrite components_quartus, components_SIM_DIR. intros Hnoerr.
  pose proof Hnoerr as [[d Hdir] Hrem]%rmtree_error_None.
  pose proof (subtree_removable_self _ _ _ Hdir Hrem) as Hpar.
  unfold removable in Hpar. cbn [parent removelast] in Hpar.
  destruct (fs w !! [".."]) as [[|[]|]|] eqn:Hparent; try discriminate.
  rewrite clean_unfold, components_SIM_DIR. cbn [snd].
  set (w1 := World (rmtree_fs (fs w) [".."; "sim"])
               (stdout w ++ ["Cleaned simulation directory."]) (calls w)).
  intros Hprep.
  assert (fs w1 !! [".."] = Some (Dir true)) as Hpar1.
  { cbn [w1 fs]. rewrite rmtree_fs_outside; [done |].
    intros [k Hk]. discriminate Hk. }
  pose proof (ensure_dirs_keeps w1) as Hkeeps. rewrite Hprep in Hkeeps.
  cbn [snd] in Hkeeps.
  destruct (ensure_dirs_ok w1 w2 Hprep) as (_ & _ & Hadds & Hnew).
  revert Hnew. rewrite components_quartus, components_SIM_DIR. intros Hnew.
  split; [|split].
  - apply Hnew.
    + apply elem_of_cons. right. apply elem_of_cons. by left.
    + cbn [w1 fs]. by apply rmtree_fs_removes.
  - intros q Hpre Hne.
    destruct (strictly_below_sim_is_new q Hpre Hne) as [H1 H2].
    rewrite Hkeeps by done. cbn [w1 fs]. by apply rmtree_fs_removes.
  - intros q Hout Hquartus.
    destruct (decide (q = [".."])) as [->|Hnp].
    + by rewrite (only_adds_dirs_lookup w1 w2 _ _ Hadds Hpar1).
    + rewrite Hkeeps; [| done | done | intros ->; by apply Hout].
      cbn [w1 fs]. by apply rmtree_fs_outside.
Qed.

Lemma ensure_dirs_after_clean_gives_empty_sim_dir_witness :
  fs (ensure_dirs (clean Examples.built).2).2 !! components SIM_DIR
    = Some (Dir true)
  ∧ fs (ensure_dirs (clean Examples.built).2).2
      !! [".."; "sim"; "waveform.wlf"] = None.
Proof.
  destruct (ensure_dirs_after_clean_gives_empty_sim_dir Examples.built
              (ensure_dirs (clean Examples.built).2).2)
    as (Hdir & Hbelow & _).
  - vm_compute. reflexivity.
  - vm_compute. reflexivity.
  - split; [exact Hdir |]. apply Hbelow.
    + by exists ["waveform.wlf"].
    + discriminate.
Defined.

(** ** What else the script does not do *)

(** X18: [ensure_dirs] tests for existence, not for a directory.  A
    regular file at the path of the simulation directory is still a
    regular file after [ensure_dirs], whatever the outcome; and when
    [../quartus] exists, [ensure_dirs] returns normally without having
    changed anything, so no simulation directory has been made. *)
Theorem ensure_dirs_accepts_regular_file (w : world) :
  fs w !! components SIM_DIR = Some File →
  fs (ensure_dirs w).2 !! components SIM_DIR = Some File
  ∧ (exists_at (fs w) (components "../quartus") = true →
     ensure_dirs w = (Ok tt, w)).
Proof.
  intros Hfile. split.
  - apply (only_adds_dirs_lookup w (ensure_dirs w).2);
      [apply ensure_dirs_only_adds | done].
  - intros Hq. apply ensure_dirs_noop; [done |].
    unfold exists_at. by rewrite Hfile.
Qed.

Lemma ensure_dirs_accepts_regular_file_witness :
  ensure_dirs
    (World (<[ [".."; "sim"] := File ]>
              (<[ [".."; "quartus"] := Dir true ]> Examples.fresh_fs)) [] [])
  = (Ok tt,
     World (<[ [".."; "sim"] := File ]>
              (<[ [".."; "quartus"] := Dir true ]> Examples.fresh_fs)) [] [])
  ∧ fs (ensure_dirs
          (World (<[ [".."; "sim"] := File ]> Examples.fresh_fs) [] [])).2
      !! components SIM_DIR = Some File.
Proof.
  split.
  - destruct (ensure_dirs_accepts_regular_file
                (World (<[ [".."; "sim"] := File ]>
                   (<[ [".."; "quartus"] := Dir true ]> Examples.fresh_fs))
                   [] [])) as [_ Hnoop].
    + vm_compute. reflexivity.
    + apply Hnoop. vm_compute. reflexivity.
  - apply (ensure_dirs_accepts_regular_file
             (World (<[ [".."; "sim"] := File ]> Examples.fresh_fs) [] [])).
    vm_compute. reflexivity.
Defined.

Lemma issued_nothing {A} (m : M A) w :
  calls (m w).2 = calls w → issued m w = [].
Proof. intros H. apply issued_app. by rewrite app_nil_r. Qed.

Lemma argv_of_prefix (l : list invocation) (L L' : list (list string)) :
  map inv_argv l `prefix_of` L → L ⊆ L' →
  Forall (λ i, inv_argv i ∈ L') l.
Proof.
  intros Hpre Hsub. apply Forall_forall. intros i Hi. apply Hsub.
  eapply elem_of_prefix; [|exact Hpre].
  apply list_elem_of_In, in_map, list_elem_of_In, Hi.
Qed.

(** X19: the script starts nothing but its five fixed command lines.
    Whatever the arguments, the filesystem and the tools, every invocation
    the dispatcher issues has one of five argument vectors built from the
    configuration alone; no argument of the script ever reaches the
    command line of a tool. *)
Theorem only_fixed_command_lines_are_issued
    (spawn : list string → filesystem → os_error + Z * filesystem)
    (argv : list string) (w : world) :
  Forall
    (λ i, inv_argv i ∈
          [ ["vlib"; SIM_DIR];
            ["vlog"; "-work"; SIM_DIR] ++ VERILOG_FILES;
            vsim_batch_cmd (os_path_join SIM_DIR "simulation.log")
                           (os_path_join SIM_DIR "waveform.wlf");
            vsim_gui_cmd;
            ["vsim"; "-view"; os_path_join SIM_DIR "waveform.wlf"] ])
    (issued (main spawn argv) w).
Proof.
  destruct argv as [|script [|cmd rest]].
  1,2: rewrite issued_nothing; [constructor |];
       by rewrite main_short by (cbn; lia).
  unfold issued. rewrite main_dispatch.
  destruct (String.eqb cmd "simulate").
  { rewrite simulate_factors.
    destruct (then_run_trace spawn
                (vsim_batch_cmd (os_path_join SIM_DIR "simulation.log")
                                (os_path_join SIM_DIR "waveform.wlf")) w)
      as (l & Hc & Htrace & _).
    rewrite Hc, drop_app_length.
    destruct (run_trace_facts _ _ _ Htrace) as (_ & _ & Hpre & _).
    eapply argv_of_prefix; [exact Hpre |].
    intros c Hc'. rewrite !elem_of_cons in Hc'. rewrite !elem_of_cons.
    unfold vlib_cmd, vlog_cmd in Hc'. tauto. }
  destruct (String.eqb cmd "simulate_gui").
  { rewrite simulate_gui_factors.
    destruct (then_run_trace spawn vsim_gui_cmd w) as (l & Hc & Htrace & _).
    rewrite Hc, drop_app_length.
    destruct (run_trace_facts _ _ _ Htrace) as (_ & _ & Hpre & _).
    eapply argv_of_prefix; [exact Hpre |].
    intros c Hc'. rewrite !elem_of_cons in Hc'. rewrite !elem_of_cons.
    unfold vlib_cmd, vlog_cmd in Hc'. tauto. }
  destruct (String.eqb cmd "view_wave").
  { unfold view_wave.
    destruct (run_command_calls spawn
                ["vsim"; "-view"; os_path_join SIM_DIR "waveform.wlf"] w)
      as [status Hc].
    rewrite Hc, drop_app_length. constructor; [|constructor].
    cbn [inv_argv]. rewrite !elem_of_cons. tauto. }
  destruct (String.eqb cmd "clean").
  { rewrite clean_unfold. cbn [snd calls]. rewrite drop_all. constructor. }
  destruct (String.eqb cmd "help").
  { cbn. rewrite drop_all. constructor. }
  cbn. rewrite drop_all. constructor.
Qed.
